(** * simple-crud-go: the path-keyed CRUD handler of [main.go]

    A shallow embedding of the request handler and of the four repository
    operations it dispatches to, together with an in-memory reading of the
    document collection they talk to.

    The program is written against three libraries that are not part of
    the repository: [encoding/json], [net/http] and the MongoDB driver.
    Their entry points appear here under their Go names ([json_Unmarshal],
    [rw_WriteHeader], [FindOne], ...).  The JSON decoder and the semantics of
    update documents are parameters of the development; the collection is
    a list of documents, in insertion order, with no uniqueness constraint
    (the program creates no index).  What the database makes of a
    document it is asked to store (the [_id] it adds, the writes it
    refuses) is a parameter of [store]. *)

From Stdlib Require Import ZArith Ascii String List DecimalString.
From stdpp Require Import gmap strings list fin_maps.
Set Warnings "-register-all".
Open Scope string_scope.

(** ** Go values *)

(** The dynamic values that live in a [map[string]any]. *)
Inductive any : Type :=
| Nil
| Bool (b : bool)
| Int (n : Z)
| Float64 (bits : Z)
| Str (s : string)
| Slice (l : list any)
| Object (m : gmap string any).

(** A stored document, and an allocated [map[string]any]. *)
Abbreviation Doc := (gmap string any).

(** A Go variable of type [map[string]any]: [None] is the nil map. *)
Abbreviation GoMap := (option (gmap string any)).

(** Go's [error] values.  [ErrNoDocuments] is the driver's sentinel,
    every other error is known by its text. *)
Inductive error : Type :=
| ErrNoDocuments
| errorString (msg : string).

Definition Error (e : error) : string :=
  match e with
  | ErrNoDocuments => "mongo: no documents in result"
  | errorString msg => msg
  end.

(** [errors.Is(err, target)]: the program asks it for the sentinel only,
    and no other error is the sentinel. *)
Definition errors_Is (err : option error) (target : error) : bool :=
  match err, target with
  | Some ErrNoDocuments, ErrNoDocuments => true
  | _, _ => false
  end.

(** [fmt.Sprintf("%d", n)]. *)
Definition fmt_d (n : Z) : string := NilZero.string_of_int (Z.to_int n).

(** [net/http] constants. *)
Definition StatusOK : Z := 200.
Definition StatusBadRequest : Z := 400.
Definition StatusNotFound : Z := 404.
Definition MethodGet : string := "GET".
Definition MethodPost : string := "POST".
Definition MethodPut : string := "PUT".
Definition MethodDelete : string := "DELETE".

(** ** Requests and response writers *)

(** [req.Body]: a stream that delivers its bytes or breaks. *)
Inductive ReadCloser : Type :=
| Delivers (bytes : string)
| Breaks (err : string).

Definition io_ReadAll (r : ReadCloser) : string + string :=
  match r with
  | Delivers bytes => inr bytes
  | Breaks err => inl err
  end.

Record Request : Type := {
  Method : string;
  RequestURI : string;
  Body : ReadCloser
}.

(** What a handler has sent so far.  A JSON text on the wire is
    represented by the value it encodes. *)
Record ResponseWriter : Type := {
  rw_Header : gmap string string;
  rw_status : option Z;
  rw_written : list GoMap
}.

Definition freshWriter : ResponseWriter :=
  {| rw_Header := ∅; rw_status := None; rw_written := [] |}.

Definition Header_Set (rw : ResponseWriter) (k v : string) : ResponseWriter :=
  {| rw_Header := <[k := v]> (rw_Header rw);
     rw_status := rw_status rw;
     rw_written := rw_written rw |}.

Definition rw_Write (rw : ResponseWriter) (json_bytes : GoMap) : ResponseWriter :=
  {| rw_Header := rw_Header rw;
     rw_status := match rw_status rw with
                  | None => Some StatusOK
                  | Some c => Some c
                  end;
     rw_written := (rw_written rw ++ [json_bytes])%list |}.

(** [json.Marshal] of a [map[string]any] built from [any] values: each of
    them has an encoding, so no error is produced. *)
Definition json_Marshal (v : GoMap) : string + GoMap := inr v.

(** ** The driver's interface *)

(** [*mongo.SingleResult]: its [Err()] and what [Decode] into a
    [map[string]any] gives. *)
Record SingleResult : Type := {
  sr_Err : option error;
  sr_Decode : error + gmap string any
}.

Record DeleteResult : Type := { DeletedCount : Z }.

(** The collection calls the program makes.  Every filter in [main.go]
    is [bson.D{{Key: "path", Value: path}}], so a call carries the path. *)
Inductive StoreCall : Type -> Type :=
| FindOne (path : string) : StoreCall SingleResult
| InsertOne (document : gmap string any) : StoreCall (option error)
| ReplaceOne (path : string) (replacement : gmap string any)
  : StoreCall (option error)
| UpdateOne (path : string) (update : gmap string any)
  : StoreCall (option error)
| DeleteOne (path : string) : StoreCall (error + DeleteResult).

(** A call with its arguments, as it is seen on the wire. *)
Inductive Invocation : Type :=
| Invoked {R : Type} (c : StoreCall R).

(** ** Handler code as a small monad

    A computation returns, panics, or calls the collection and goes on
    with the answer. *)
Inductive Prog (A : Type) : Type :=
| Ret (a : A)
| Panic (msg : string)
| Call {R : Type} (c : StoreCall R) (k : R -> Prog A).

Arguments Ret {A} a.
Arguments Panic {A} msg.
Arguments Call {A R} c k.

Fixpoint bind {A B : Type} (m : Prog A) (f : A -> Prog B) : Prog B :=
  match m with
  | Ret a => f a
  | Panic msg => Panic msg
  | Call c k => Call c (fun r => bind (k r) f)
  end.

Declare Scope prog_scope.
Delimit Scope prog_scope with prog.
Notation "x <- m ;; k" := (bind m (fun x => k))
  (at level 100, m at next level, right associativity) : prog_scope.
Open Scope prog_scope.

(** A single call, returning the store's answer. *)
Definition call {R : Type} (c : StoreCall R) : Prog R := Call c Ret.

(** [log.Panic(msg)]: logs, then panics with [msg]. *)
Definition log_Panic {A : Type} (msg : string) : Prog A := Panic msg.

(** [m[k] = v] of the Go runtime: writing into the nil map panics. *)
Definition mapassign (m : GoMap) (k : string) (v : any)
  : Prog (gmap string any) :=
  match m with
  | None => Panic "assignment to entry in nil map"
  | Some entries => Ret (<[k := v]> entries)
  end.

(** [rw.WriteHeader(code)]: [net/http] panics on a code outside
    100..999; the first call fixes the status. *)
Definition rw_WriteHeader (rw : ResponseWriter) (code : Z) : Prog ResponseWriter :=
  if (code <? 100)%Z || (999 <? code)%Z
  then Panic ("invalid WriteHeader code " ++ fmt_d code)
  else Ret {| rw_Header := rw_Header rw;
              rw_status := match rw_status rw with
                           | None => Some code
                           | Some c => Some c
                           end;
              rw_written := rw_written rw |}.

(** How a run ends. *)
Inductive Outcome (A : Type) : Type :=
| Returned (a : A)
| Panicked (msg : string).

Arguments Returned {A} a.
Arguments Panicked {A} msg.

(** Running a computation against a store [h] with state [S]: the final
    state, the calls made in order, and the outcome. *)
Fixpoint run {S A : Type} (h : forall R, StoreCall R -> S -> S * R)
    (m : Prog A) (s : S) : S * list Invocation * Outcome A :=
  match m with
  | Ret a => (s, [], Returned a)
  | Panic msg => (s, [], Panicked msg)
  | Call c k =>
      let '(s1, r) := h _ c s in
      let '(s2, calls, o) := run h (k r) s1 in
      (s2, Invoked c :: calls, o)
  end.

(** ** The program *)

(** [Response] (main.go:22), fields [body] and [code], and
    [newResponse] (main.go:27). *)
Record Response : Type := {
  r_body : GoMap;
  r_code : Z
}.

Definition newResponse : Response :=
  {| r_body := Some ∅; r_code := (-1)%Z |}.

(** main.go:59 *)
Definition makeResponse (err : string) (code : Z) : GoMap * Z :=
  let res : gmap string any := ∅ in
  let res := <["message" := Str err]> res in
  let res := <["status" := Int code]> res in
  (Some res, code).

Section Program.

(** [json.Unmarshal(bytes, &result)] with [result] a fresh
    [map[string]any]: an error, or the value left in [result] (the nil
    map for the JSON text [null]). *)
Variable json_Unmarshal : string -> error + GoMap.

(** main.go:66 *)
Definition jsonToMap (jsonString : string) : GoMap * option error :=
  match json_Unmarshal jsonString with
  | inl err => (None, Some err)
  | inr result => (result, None)
  end.

(** main.go:74 *)
Definition readBody (req : Request) : Prog (GoMap * option error) :=
  match io_ReadAll (Body req) with
  | inl err => log_Panic err
  | inr body =>
      if negb (String.length body =? 0)%nat
      then Ret (jsonToMap body)
      else Ret (None, None)
  end.

(** main.go:92; the result is the nil pointer when nothing matches. *)
Definition getSR (path : string) : Prog (option SingleResult) :=
  sr <- call (FindOne path) ;;
  if errors_Is (sr_Err sr) ErrNoDocuments then Ret None
  else match sr_Err sr with
       | Some err => log_Panic (Error err)
       | None => Ret (Some sr)
       end.

(** main.go:105 *)
Definition getItem (path : string) : Prog (GoMap * Z) :=
  data <- getSR path ;;
  match data with
  | None => Ret (makeResponse "No item found" StatusNotFound)
  | Some data =>
      match sr_Decode data with
      | inl err => log_Panic (Error err)
      | inr i => Ret (Some i, StatusOK)
      end
  end.

(** main.go:118 *)
Definition createOrOverwriteItem (path : string) (data : GoMap)
  : Prog (GoMap * Z) :=
  data <- mapassign data "path" (Str path) ;;
  found <- getSR path ;;
  match found with
  | None =>
      err <- call (InsertOne data) ;;
      match err with
      | Some err => log_Panic (Error err)
      | None => Ret (makeResponse "Ok" StatusOK)
      end
  | Some _ =>
      err <- call (ReplaceOne path data) ;;
      match err with
      | Some err => log_Panic (Error err)
      | None => Ret (makeResponse "Ok" StatusOK)
      end
  end.

(** main.go:137 *)
Definition createOrUpdateItem (path : string) (data : GoMap)
  : Prog (GoMap * Z) :=
  data <- mapassign data "path" (Str path) ;;
  found <- getSR path ;;
  match found with
  | None =>
      err <- call (InsertOne data) ;;
      match err with
      | Some err => log_Panic (Error err)
      | None => Ret (makeResponse "Ok" StatusOK)
      end
  | Some _ =>
      err <- call (UpdateOne path data) ;;
      match err with
      | Some err => Ret (makeResponse (Error err) StatusBadRequest)
      | None => Ret (makeResponse "Ok" StatusOK)
      end
  end.

(** main.go:156 *)
Definition deleteItem (path : string) : Prog (GoMap * Z) :=
  r <- call (DeleteOne path) ;;
  match r with
  | inl err => log_Panic (Error err)
  | inr dr =>
      Ret (makeResponse ("Deleted count: " ++ fmt_d (DeletedCount dr)) StatusOK)
  end.

(** main.go:168.  The [log.Printf] line writes to the log only. *)
Definition mainHandler (rw : ResponseWriter) (req : Request)
  : Prog ResponseWriter :=
  let response := newResponse in
  let path := RequestURI req in
  r <- readBody req ;;
  let '(body, err) := r in
  r <- match err with
       | Some _ => Ret (makeResponse "Error reading JSON body" StatusBadRequest)
       | None =>
           if String.eqb (Method req) MethodGet then getItem path
           else if String.eqb (Method req) MethodPost
                then createOrUpdateItem path body
           else if String.eqb (Method req) MethodPut
                then createOrOverwriteItem path body
           else if String.eqb (Method req) MethodDelete then deleteItem path
           else Ret (makeResponse "Unsupported method" StatusBadRequest)
       end ;;
  let response := {| r_body := fst r; r_code := snd r |} in
  let rw := Header_Set rw "Content-Type" "application/json" in
  rw <- rw_WriteHeader rw (r_code response) ;;
  match json_Marshal (r_body response) with
  | inl err => log_Panic err
  | inr json_bytes => Ret (rw_Write rw json_bytes)
  end.

End Program.

(** ** The collection

    The driver's behaviour on one collection held in memory: a list of
    documents in insertion order.  [InsertOne] appends, the other calls
    act on the first document selected by the filter.  What an update
    document does to the document it is applied to belongs to the
    database, and is a parameter.

    [exec] below is the collection that keeps every document as it is
    handed and refuses no insert and no replacement.  The database adds
    an [_id] to what it stores and refuses some writes; [store], further
    down, takes that as parameters too, and [exec] is its instance that
    admits everything unchanged. *)

(** The filter [{path: p}] selects the documents whose [path] field is
    the string [p]; the program never stores another kind of [path]. *)
Definition selects (path : string) (d : gmap string any) : bool :=
  match d !! "path" with
  | Some (Str s) => String.eqb s path
  | _ => false
  end.

(** All documents the filter selects, in order. *)
Definition docsAt (path : string) (db : list (gmap string any))
  : list (gmap string any) :=
  List.filter (selects path) db.

Fixpoint replaceFirst (path : string) (d' : gmap string any)
    (db : list (gmap string any)) : list (gmap string any) :=
  match db with
  | [] => []
  | d :: rest =>
      if selects path d then d' :: rest
      else d :: replaceFirst path d' rest
  end.

Fixpoint deleteFirst (path : string) (db : list (gmap string any))
  : list (gmap string any) * Z :=
  match db with
  | [] => ([], 0%Z)
  | d :: rest =>
      if selects path d then (rest, 1%Z)
      else let '(rest', n) := deleteFirst path rest in (d :: rest', n)
  end.

(** The data model's invariant: no two documents share a path. *)
Definition wellKeyed (db : list (gmap string any)) : Prop :=
  forall path, (length (docsAt path db) <= 1)%nat.

(** Update operators are the keys that start with a dollar sign. *)
Definition isOperator (k : string) : bool :=
  match k with
  | String c _ => Ascii.eqb c "$"%char
  | EmptyString => false
  end.

Section Collection.

(** [applyUpdate u d]: the document [d] after the update document [u],
    or the text of the error that rejects it. *)
Variable applyUpdate : gmap string any -> gmap string any ->
                       string + gmap string any.

Definition exec (R : Type) (c : StoreCall R) (db : list (gmap string any))
  : list (gmap string any) * R :=
  match c in StoreCall R return list (gmap string any) * R with
  | FindOne path =>
      match List.find (selects path) db with
      | Some d => (db, {| sr_Err := None; sr_Decode := inr d |})
      | None => (db, {| sr_Err := Some ErrNoDocuments;
                        sr_Decode := inl ErrNoDocuments |})
      end
  | InsertOne document => ((db ++ [document])%list, None)
  | ReplaceOne path replacement => (replaceFirst path replacement db, None)
  | UpdateOne path update =>
      match List.find (selects path) db with
      | None => (db, None)
      | Some d =>
          match applyUpdate update d with
          | inl msg => (db, Some (errorString msg))
          | inr d' => (replaceFirst path d' db, None)
          end
      end
  | DeleteOne path =>
      let '(db', n) := deleteFirst path db in
      (db', inr {| DeletedCount := n |})
  end.

End Collection.

(** ** Instances of the parameters

    A decoder for a fragment of JSON (the text [null], and objects whose
    members are strings, [true], [false] or [null], written without white
    space or escapes; every other text is rejected) and an update
    semantics with the one operator [$set].  They instantiate the
    parameters in the closed lemmas at the end, on texts of the fragment
    and on the text [{], which is not JSON. *)
Module Sample.

Definition quote : ascii := "034"%char.
Definition backslash : ascii := "092"%char.

(** [quoted s] is [s] between double quotes. *)
Definition quoted (s : string) : string :=
  String quote (s ++ String quote EmptyString).

(** The characters of a string literal up to its closing quote. *)
Fixpoint scanString (s : string) : option (string * string) :=
  match s with
  | EmptyString => None
  | String c rest =>
      if Ascii.eqb c quote then Some (EmptyString, rest)
      else if Ascii.eqb c backslash then None
      else if (Ascii.nat_of_ascii c <? 32)%nat then None
      else match scanString rest with
           | Some (str, rest') => Some (String c str, rest')
           | None => None
           end
  end.

Definition scanValue (s : string) : option (any * string) :=
  match s with
  | String "n" (String "u" (String "l" (String "l" rest))) => Some (Nil, rest)
  | String "t" (String "r" (String "u" (String "e" rest))) =>
      Some (Bool true, rest)
  | String "f" (String "a" (String "l" (String "s" (String "e" rest)))) =>
      Some (Bool false, rest)
  | String c rest =>
      if Ascii.eqb c quote
      then match scanString rest with
           | Some (str, rest') => Some (Str str, rest')
           | None => None
           end
      else None
  | EmptyString => None
  end.

(** The members of an object after its opening brace or a comma. *)
Fixpoint scanMembers (fuel : nat) (s : string) (acc : gmap string any)
  : option (gmap string any) :=
  match fuel with
  | O => None
  | S fuel =>
      match s with
      | String c rest =>
          if Ascii.eqb c quote
          then match scanString rest with
               | Some (key, String ":" rest') =>
                   match scanValue rest' with
                   | Some (v, String "," rest'') =>
                       scanMembers fuel rest'' (<[key := v]> acc)
                   | Some (v, String "}" EmptyString) =>
                       Some (<[key := v]> acc)
                   | _ => None
                   end
               | _ => None
               end
          else None
      | EmptyString => None
      end
  end.

Definition json_Unmarshal (bytes : string) : error + GoMap :=
  match bytes with
  | String "n" (String "u" (String "l" (String "l" EmptyString))) => inr None
  | String "{" (String "}" EmptyString) => inr (Some ∅)
  | String "{" rest =>
      match scanMembers (String.length rest) rest ∅ with
      | Some m => inr (Some m)
      | None => inl (errorString "invalid character in JSON object")
      end
  | _ => inl (errorString "cannot unmarshal into Go value of type map[string]interface {}")
  end.

(** An update document is accepted when all its top-level keys are
    operators; [$set] with an object overwrites the fields it lists. *)
Definition applyUpdate (u d : gmap string any) : string + gmap string any :=
  if forallb isOperator (map fst (map_to_list u))
  then match u !! "$set" with
       | Some (Object fields) => inr (fields ∪ d)
       | _ => inr d
       end
  else inl "Unknown modifier. Expected a valid update modifier".

(** A collection with one document, at [/a], and a few bodies. *)
Definition doc_a : gmap string any :=
  <["path" := Str "/a"]> {["n" := Int 1]}.

Definition db_a : list (gmap string any) := [doc_a].

Definition body_b : gmap string any := {["n" := Int 2]}.

Definition set_n : gmap string any :=
  {["$set" := Object {["n" := Int 2]}]}.

Definition request (method : string) (bytes : string) : Request :=
  {| Method := method; RequestURI := "/a"; Body := Delivers bytes |}.

(** The JSON text of an object with the one member [name], of value
    [x]. *)
Definition json_name_x : string :=
  "{" ++ quoted "name" ++ ":" ++ quoted "x" ++ "}".

End Sample.

(** The state of a writer on which nothing had been sent, once the
    handler has sent the result [r] of an operation. *)
Definition sent (r : GoMap * Z) : ResponseWriter :=
  {| rw_Header := {["Content-Type" := "application/json"]};
     rw_status := Some (snd r);
     rw_written := [fst r] |}.

(** The methods the dispatcher knows. *)
Definition supported (method : string) : Prop :=
  method = MethodGet \/ method = MethodPost \/
  method = MethodPut \/ method = MethodDelete.

(** Requests served one after the other, each on a writer of its own:
    the outcomes in order and the collection at the end.  A request that
    panics is dropped by [net/http] and the next one is served. *)
Fixpoint session (json_Unmarshal : string -> error + GoMap)
    (applyUpdate : gmap string any -> gmap string any ->
                   string + gmap string any)
    (reqs : list Request) (db : list (gmap string any))
  : list (Outcome ResponseWriter) * list (gmap string any) :=
  match reqs with
  | [] => ([], db)
  | req :: rest =>
      let '(db1, _, o) :=
        run (exec applyUpdate) (mainHandler json_Unmarshal freshWriter req) db
      in
      let '(os, db2) := session json_Unmarshal applyUpdate rest db1 in
      (o :: os, db2)
  end.

(** An update semantics keeps paths when no update document that carries
    [path = p] takes a document out of the reach of the filter on [p]. *)
Definition keepsPath
    (applyUpdate : gmap string any -> gmap string any ->
                   string + gmap string any) : Prop :=
  forall path u d d',
    selects path d = true ->
    applyUpdate (<["path" := Str path]> u) d = inr d' ->
    selects path d' = true.

(** ** Configuration *)

(** main.go:35 *)
Record Environment : Type := {
  dbURI : string;
  dbName : string;
  dbCollection : string;
  dbUsername : string;
  dbPassword : string;
  serverHost : string;
  serverPort : string
}.

Section Config.

(** [os.Getenv]: the value of a variable of the process environment,
    the empty string when the variable is not set. *)
Variable os_Getenv : string -> string.

(** main.go:85 *)
Definition getEnv (envVar : string) (fallback : string) : string :=
  let env := os_Getenv envVar in
  if negb (String.eqb env EmptyString) then env else fallback.

(** main.go:45 *)
Definition env : Environment :=
  {| dbURI := getEnv "DB_URI" "mongodb://127.0.0.1:27017";
     dbName := getEnv "DB_NAME" "simple_crud";
     dbCollection := getEnv "DB_COLLECTION" "simple_crud";
     dbUsername := getEnv "DB_USERNAME" "admin";
     dbPassword := getEnv "DB_PASSWORD" "admin";
     serverHost := getEnv "SERVER_HOST" "0.0.0.0";
     serverPort := getEnv "SERVER_PORT" "8080" |}.

(** main.go:235, the address handed to [http.ListenAndServe]. *)
Definition listenAddr : string := serverHost env ++ ":" ++ serverPort env.

End Config.

(** ** The two halves of [mainHandler] *)

Section Halves.

Variable json_Unmarshal : string -> error + GoMap.

(** main.go:171-192: the body is read, then the method picks the
    operation. *)
Definition route (req : Request) : Prog (GoMap * Z) :=
  let path := RequestURI req in
  r <- readBody json_Unmarshal req ;;
  let '(body, err) := r in
  match err with
  | Some _ => Ret (makeResponse "Error reading JSON body" StatusBadRequest)
  | None =>
      if String.eqb (Method req) MethodGet then getItem path
      else if String.eqb (Method req) MethodPost
           then createOrUpdateItem path body
      else if String.eqb (Method req) MethodPut
           then createOrOverwriteItem path body
      else if String.eqb (Method req) MethodDelete then deleteItem path
      else Ret (makeResponse "Unsupported method" StatusBadRequest)
  end.

(** main.go:194-200: the result [r] of the operation is sent. *)
Definition respond (rw : ResponseWriter) (r : GoMap * Z)
  : Prog ResponseWriter :=
  let rw := Header_Set rw "Content-Type" "application/json" in
  rw <- rw_WriteHeader rw (snd r) ;;
  match json_Marshal (fst r) with
  | inl err => log_Panic err
  | inr json_bytes => Ret (rw_Write rw json_bytes)
  end.

End Halves.

(** The path a call to the collection is about: the path of its filter,
    and, for a call that carries a document, the [path] field of that
    document. *)
Definition concerns (path : string) (i : Invocation) : bool :=
  match i with
  | Invoked c =>
      match c with
      | FindOne p => String.eqb p path
      | InsertOne document => selects path document
      | ReplaceOne p replacement =>
          String.eqb p path && selects path replacement
      | UpdateOne p update => String.eqb p path && selects path update
      | DeleteOne p => String.eqb p path
      end
  end.

(** The calls that can change the collection. *)
Definition writes (i : Invocation) : bool :=
  match i with
  | Invoked c =>
      match c with
      | FindOne _ => false
      | _ => true
      end
  end.

(** The status codes the handler sends. *)
Definition sendable (code : Z) : Prop :=
  code = StatusOK \/ code = StatusBadRequest \/ code = StatusNotFound.

(** Every document has a string for [path]. *)
Definition allKeyed (db : list (gmap string any)) : Prop :=
  forall d, In d db -> exists path, d !! "path" = Some (Str path).


(** Two stores that fail.  [unreachable msg] answers every call with
    the error [msg]; [frozen msg] answers lookups from the collection it
    holds and refuses every write with [msg]. *)
Definition unreachable (msg : string) (R : Type) (c : StoreCall R)
    (s : unit) : unit * R :=
  match c in StoreCall R return unit * R with
  | FindOne _ => (s, {| sr_Err := Some (errorString msg);
                        sr_Decode := inl (errorString msg) |})
  | InsertOne _ => (s, Some (errorString msg))
  | ReplaceOne _ _ => (s, Some (errorString msg))
  | UpdateOne _ _ => (s, Some (errorString msg))
  | DeleteOne _ => (s, inl (errorString msg))
  end.

Definition frozen (msg : string) (R : Type) (c : StoreCall R)
    (db : list (gmap string any)) : list (gmap string any) * R :=
  match c in StoreCall R return list (gmap string any) * R with
  | FindOne path =>
      match List.find (selects path) db with
      | Some d => (db, {| sr_Err := None; sr_Decode := inr d |})
      | None => (db, {| sr_Err := Some ErrNoDocuments;
                        sr_Decode := inl ErrNoDocuments |})
      end
  | InsertOne _ => (db, Some (errorString msg))
  | ReplaceOne _ _ => (db, Some (errorString msg))
  | UpdateOne _ _ => (db, Some (errorString msg))
  | DeleteOne _ => (db, inl (errorString msg))
  end.

(** An update semantics that accepts every update document and merges
    its fields into the document, and a process environment that sets
    the port only. *)
Definition mergeFields (u d : gmap string any) : string + gmap string any :=
  inr (u ∪ d).

Definition portOnly (name : string) : string :=
  if String.eqb name "SERVER_PORT" then "9090" else EmptyString.

(** ** The envelope *)

(** The response envelope: the two fields [message] and [status]. *)
Definition envelope (message : string) (status : Z) : gmap string any :=
  {["message" := Str message; "status" := Int status]}.

(** ** The collection with the database's own rules

    What the database makes of a document it is asked to insert, given
    the collection, and of a replacement for a document it holds: the
    document it stores (as handed, with an [_id]), or the text of the
    error with which it refuses the write. *)

Section Store.

Variable admitInsert : list (gmap string any) -> gmap string any ->
                       string + gmap string any.
Variable admitReplace : gmap string any -> gmap string any ->
                        string + gmap string any.
Variable applyUpdate : gmap string any -> gmap string any ->
                       string + gmap string any.

Definition store (R : Type) (c : StoreCall R) (db : list (gmap string any))
  : list (gmap string any) * R :=
  match c in StoreCall R return list (gmap string any) * R with
  | FindOne path =>
      match List.find (selects path) db with
      | Some d => (db, {| sr_Err := None; sr_Decode := inr d |})
      | None => (db, {| sr_Err := Some ErrNoDocuments;
                        sr_Decode := inl ErrNoDocuments |})
      end
  | InsertOne document =>
      match admitInsert db document with
      | inl msg => (db, Some (errorString msg))
      | inr d => ((db ++ [d])%list, None)
      end
  | ReplaceOne path replacement =>
      match List.find (selects path) db with
      | None => (db, None)
      | Some old =>
          match admitReplace old replacement with
          | inl msg => (db, Some (errorString msg))
          | inr d => (replaceFirst path d db, None)
          end
      end
  | UpdateOne path update =>
      match List.find (selects path) db with
      | None => (db, None)
      | Some d =>
          match applyUpdate update d with
          | inl msg => (db, Some (errorString msg))
          | inr d' => (replaceFirst path d' db, None)
          end
      end
  | DeleteOne path =>
      let '(db', n) := deleteFirst path db in
      (db', inr {| DeletedCount := n |})
  end.

(** The database stores what it is handed: an admitted document has the
    fields of the one handed, [_id] apart; a replacement keeps the [_id]
    of the document it replaces; and a replacement that was admitted is
    admitted again, with the same result, for the document it gave. *)
Definition keepsDocuments : Prop :=
  (forall db d d',
     admitInsert db d = inr d' ->
     forall k, k <> "_id" -> d' !! k = d !! k) /\
  (forall old r d',
     admitReplace old r = inr d' ->
     (forall k, k <> "_id" -> d' !! k = r !! k) /\
     d' !! "_id" = old !! "_id") /\
  (forall old r d',
     admitReplace old r = inr d' -> admitReplace d' r = inr d').

End Store.


(** ** An instance of the database's rules

    Inserts get the next number for [_id] unless they bring their own,
    which must be new; a replacement is refused when one of its keys
    starts with a dollar sign or when it brings another [_id] than the
    one of the document it replaces, and it keeps that [_id].  Two [_id]
    are compared when both are numbers or both are strings. *)
Module Rules.

Definition sameId (a b : any) : bool :=
  match a, b with
  | Int m, Int n => (m =? n)%Z
  | Str u, Str v => String.eqb u v
  | _, _ => false
  end.

Definition idOf (d : gmap string any) : Z :=
  match d !! "_id" with
  | Some (Int n) => n
  | _ => 0%Z
  end.

Definition freshId (db : list (gmap string any)) : Z :=
  (1 + fold_right Z.max 0 (map idOf db))%Z.

Definition admitInsert (db : list (gmap string any)) (d : gmap string any)
  : string + gmap string any :=
  match d !! "_id" with
  | None => inr (<["_id" := Int (freshId db)]> d)
  | Some i =>
      if existsb (fun x => match x !! "_id" with
                           | Some j => sameId i j
                           | None => false
                           end) db
      then inl "E11000 duplicate key error"
      else inr d
  end.

Definition admitReplace (old r : gmap string any)
  : string + gmap string any :=
  if existsb isOperator (map fst (map_to_list r))
  then inl "replacement document cannot contain keys beginning with '$'"
  else match r !! "_id", old !! "_id" with
       | None, Some i => inr (<["_id" := i]> r)
       | None, None => inr r
       | Some i, Some j =>
           if sameId i j then inr r
           else inl "the (immutable) field '_id' was found to have been altered"
       | Some _, None =>
           inl "the (immutable) field '_id' was found to have been altered"
       end.

(** The document [/a] as the database holds it, a second document, and
    two collections.  The numbers stand for the identifiers the
    database gives. *)
Definition stored_a : gmap string any :=
  <["_id" := Int 1]> Sample.doc_a.

Definition stored_b : gmap string any :=
  <["_id" := Int 2]> (<["path" := Str "/b"]> {["n" := Int 5]}).

Definition db_a : list (gmap string any) := [stored_a].

Definition db_ab : list (gmap string any) := [stored_a; stored_b].

(** Bodies: one whose key is an operator, one that brings an [_id]. *)
Definition dollar_a : gmap string any := {["$a" := Str "x"]}.

Definition with_id : gmap string any :=
  {["_id" := Str "k7"; "name" := Str "w"]}.

(** The object that [Sample.json_name_x] decodes to, and another one. *)
Definition name_x : gmap string any := {["name" := Str "x"]}.

Definition name_w : gmap string any := {["name" := Str "w"]}.

End Rules.

(** ** Filters and list updates *)

Lemma selects_spec (path : string) (d : gmap string any) :
  selects path d = true <-> d !! "path" = Some (Str path).
Proof.
  unfold selects. destruct (d !! "path") as [[]|]; try (split; congruence).
  rewrite String.eqb_eq. split; congruence.
Qed.

Lemma selects_keyed (path : string) (b : gmap string any) :
  selects path (<["path" := Str path]> b) = true.
Proof. apply selects_spec, lookup_insert_eq. Qed.

Lemma selects_one_path (p q : string) (d : gmap string any) :
  selects p d = true -> q <> p -> selects q d = false.
Proof.
  intros Hp Hne. destruct (selects q d) eqn:Hq; [|reflexivity].
  apply selects_spec in Hp, Hq. congruence.
Qed.

Lemma find_docsAt (path : string) (db : list (gmap string any)) :
  List.find (selects path) db = head (docsAt path db).
Proof.
  induction db as [|d db IH]; simpl; [reflexivity|].
  destruct (selects path d); simpl; auto.
Qed.

Lemma find_none_docsAt (path : string) (db : list (gmap string any)) :
  List.find (selects path) db = None <-> docsAt path db = [].
Proof.
  rewrite find_docsAt. destruct (docsAt path db); simpl; split; congruence.
Qed.

Lemma docsAt_app (path : string) (db1 db2 : list (gmap string any)) :
  docsAt path (db1 ++ db2)%list = (docsAt path db1 ++ docsAt path db2)%list.
Proof. apply List.filter_app. Qed.

Lemma docsAt_In (path : string) (d : gmap string any)
    (db : list (gmap string any)) :
  In d (docsAt path db) <-> In d db /\ d !! "path" = Some (Str path).
Proof. unfold docsAt. rewrite List.filter_In, selects_spec. tauto. Qed.

Lemma docsAt_replaceFirst (path : string) (d' : gmap string any)
    (db : list (gmap string any)) :
  selects path d' = true ->
  docsAt path (replaceFirst path d' db) =
  match docsAt path db with
  | [] => []
  | _ :: rest => d' :: rest
  end.
Proof.
  intros Hd'. induction db as [|d db IH]; simpl; [reflexivity|].
  destruct (selects path d) eqn:Hd; simpl.
  - now rewrite Hd'.
  - now rewrite Hd.
Qed.

Lemma docsAt_replaceFirst_other (p q : string) (d' : gmap string any)
    (db : list (gmap string any)) :
  selects p d' = true -> q <> p ->
  docsAt q (replaceFirst p d' db) = docsAt q db.
Proof.
  intros Hd' Hne. induction db as [|d db IH]; simpl; [reflexivity|].
  destruct (selects p d) eqn:Hd; simpl.
  - rewrite (selects_one_path p q d' Hd' Hne).
    now rewrite (selects_one_path p q d Hd Hne).
  - now rewrite IH.
Qed.

Lemma replaceFirst_none (path : string) (d' : gmap string any)
    (db : list (gmap string any)) :
  docsAt path db = [] -> replaceFirst path d' db = db.
Proof.
  induction db as [|d db IH]; simpl; [reflexivity|].
  destruct (selects path d); [discriminate|].
  intros H. now rewrite IH.
Qed.

Lemma replaceFirst_same (path : string) (d : gmap string any)
    (db : list (gmap string any)) :
  List.find (selects path) db = Some d -> replaceFirst path d db = db.
Proof.
  induction db as [|d0 db IH]; simpl; [discriminate|].
  destruct (selects path d0).
  - intros [= ->]. reflexivity.
  - intros H. now rewrite IH.
Qed.

Lemma deleteFirst_count (path : string) (db : list (gmap string any)) :
  snd (deleteFirst path db) =
  match docsAt path db with [] => 0%Z | _ :: _ => 1%Z end.
Proof.
  induction db as [|d db IH]; simpl; [reflexivity|].
  destruct (selects path d); simpl; [reflexivity|].
  destruct (deleteFirst path db); simpl in *. exact IH.
Qed.

Lemma docsAt_deleteFirst (path : string) (db : list (gmap string any)) :
  docsAt path (fst (deleteFirst path db)) = tail (docsAt path db).
Proof.
  induction db as [|d db IH]; simpl; [reflexivity|].
  destruct (selects path d) eqn:Hd; simpl; [reflexivity|].
  destruct (deleteFirst path db); simpl in *. now rewrite Hd.
Qed.

Lemma docsAt_deleteFirst_other (p q : string) (db : list (gmap string any)) :
  q <> p -> docsAt q (fst (deleteFirst p db)) = docsAt q db.
Proof.
  intros Hne. induction db as [|d db IH]; simpl; [reflexivity|].
  destruct (selects p d) eqn:Hd; simpl.
  - now rewrite (selects_one_path p q d Hd Hne).
  - destruct (deleteFirst p db); simpl in *. now rewrite IH.
Qed.

Lemma deleteFirst_none (path : string) (db : list (gmap string any)) :
  docsAt path db = [] -> deleteFirst path db = (db, 0%Z).
Proof.
  induction db as [|d db IH]; simpl; [reflexivity|].
  destruct (selects path d); [discriminate|].
  intros H. now rewrite IH.
Qed.

Lemma wellKeyed_replaceFirst (path : string) (d' : gmap string any)
    (db : list (gmap string any)) :
  selects path d' = true -> wellKeyed db ->
  wellKeyed (replaceFirst path d' db).
Proof.
  intros Hsel Hwk q. destruct (string_dec q path) as [->|Hne].
  - rewrite docsAt_replaceFirst by exact Hsel.
    specialize (Hwk path). destruct (docsAt path db); simpl in *; lia.
  - rewrite docsAt_replaceFirst_other by assumption. apply Hwk.
Qed.

Lemma wellKeyed_append (path : string) (d : gmap string any)
    (db : list (gmap string any)) :
  selects path d = true -> docsAt path db = [] -> wellKeyed db ->
  wellKeyed (db ++ [d])%list.
Proof.
  intros Hsel Hnone Hwk q. rewrite docsAt_app, length_app. simpl.
  destruct (string_dec q path) as [->|Hne].
  - rewrite Hnone, Hsel. simpl. lia.
  - rewrite (selects_one_path path q _ Hsel Hne). simpl.
    specialize (Hwk q). lia.
Qed.

Lemma wellKeyed_deleteFirst (path : string) (db : list (gmap string any)) :
  wellKeyed db -> wellKeyed (fst (deleteFirst path db)).
Proof.
  intros Hwk q. destruct (string_dec q path) as [->|Hne].
  - rewrite docsAt_deleteFirst. specialize (Hwk path).
    destruct (docsAt path db); simpl in *; lia.
  - rewrite docsAt_deleteFirst_other by assumption. apply Hwk.
Qed.

Lemma wellKeyed_nil : wellKeyed [].
Proof. intros q. simpl. lia. Qed.


Lemma docsAt_replaceFirst_any (path : string) (d' : gmap string any)
    (db : list (gmap string any)) :
  docsAt path (replaceFirst path d' db) =
  match docsAt path db with
  | [] => []
  | _ :: rest => ((if selects path d' then [d'] else []) ++ rest)%list
  end.
Proof.
  induction db as [|d db IH]; simpl; [reflexivity|].
  destruct (selects path d) eqn:Hd; simpl.
  - destruct (selects path d'); reflexivity.
  - now rewrite Hd.
Qed.

Lemma length_replaceFirst (path : string) (d' : gmap string any)
    (db : list (gmap string any)) :
  length (replaceFirst path d' db) = length db.
Proof.
  induction db as [|d db IH]; simpl; [reflexivity|].
  destruct (selects path d); simpl; congruence.
Qed.

Lemma In_replaceFirst (path : string) (d' x : gmap string any)
    (db : list (gmap string any)) :
  In x (replaceFirst path d' db) -> x = d' \/ In x db.
Proof.
  induction db as [|d db IH]; simpl; [tauto|].
  destruct (selects path d); simpl; intros [<- | Hin]; auto.
  destruct (IH Hin); auto.
Qed.

Lemma In_deleteFirst (path : string) (x : gmap string any)
    (db : list (gmap string any)) :
  In x (fst (deleteFirst path db)) -> In x db.
Proof.
  induction db as [|d db IH]; simpl; [tauto|].
  destruct (selects path d); simpl; [auto|].
  destruct (deleteFirst path db); simpl in *. intros [<- | Hin]; auto.
Qed.

(** ** Runs *)

Lemma run_bind {S A B : Type} (h : forall R, StoreCall R -> S -> S * R)
    (m : Prog A) (f : A -> Prog B) (s : S) :
  run h (bind m f) s =
  let '(s1, calls1, o) := run h m s in
  match o with
  | Returned a =>
      let '(s2, calls2, o2) := run h (f a) s1 in
      (s2, (calls1 ++ calls2)%list, o2)
  | Panicked msg => (s1, calls1, Panicked msg)
  end.
Proof.
  revert s. induction m as [a|msg|R c k IH]; intros s; simpl.
  - destruct (run h (f a) s) as [[s2 calls2] o2]. reflexivity.
  - reflexivity.
  - destruct (h R c s) as [s1 r]. rewrite IH.
    destruct (run h (k r) s1) as [[s2 calls2] [a|msg]]; simpl.
    + destruct (run h (f a) s2) as [[s3 calls3] o3]. reflexivity.
    + reflexivity.
Qed.

(** ** The operations on the in-memory collection *)

Section Properties.

Variable json_Unmarshal : string -> error + GoMap.
Variable applyUpdate : gmap string any -> gmap string any ->
                       string + gmap string any.

Lemma makeResponse_envelope (msg : string) (status : Z) :
  exists m : gmap string any,
    makeResponse msg status = (Some m, status) /\
    m !! "message" = Some (Str msg) /\
    m !! "status" = Some (Int status) /\
    (forall k, k <> "message" -> k <> "status" -> m !! k = None).
Proof.
  exists (<["status" := Int status]> (<["message" := Str msg]> ∅)).
  split; [reflexivity|]. split; [|split].
  - rewrite lookup_insert_ne by discriminate. apply lookup_insert_eq.
  - apply lookup_insert_eq.
  - intros k Hm Hs. rewrite !lookup_insert_ne by (intros <-; congruence).
    apply lookup_empty.
Qed.

Lemma run_getItem (path : string) (db : list (gmap string any)) :
  run (exec applyUpdate) (getItem path) db =
  (db, [Invoked (FindOne path)],
   Returned match List.find (selects path) db with
            | Some d => (Some d, StatusOK)
            | None => makeResponse "No item found" StatusNotFound
            end).
Proof.
  unfold getItem, getSR, call. simpl.
  destruct (List.find (selects path) db); reflexivity.
Qed.

Lemma run_createOrOverwriteItem (path : string) (b : gmap string any)
    (db : list (gmap string any)) :
  let data := <["path" := Str path]> b in
  run (exec applyUpdate) (createOrOverwriteItem path (Some b)) db =
  match List.find (selects path) db with
  | None =>
      ((db ++ [data])%list,
       [Invoked (FindOne path); Invoked (InsertOne data)],
       Returned (makeResponse "Ok" StatusOK))
  | Some _ =>
      (replaceFirst path data db,
       [Invoked (FindOne path); Invoked (ReplaceOne path data)],
       Returned (makeResponse "Ok" StatusOK))
  end.
Proof.
  unfold createOrOverwriteItem, getSR, call. simpl.
  destruct (List.find (selects path) db); reflexivity.
Qed.

Lemma run_createOrUpdateItem (path : string) (b : gmap string any)
    (db : list (gmap string any)) :
  let data := <["path" := Str path]> b in
  run (exec applyUpdate) (createOrUpdateItem path (Some b)) db =
  match List.find (selects path) db with
  | None =>
      ((db ++ [data])%list,
       [Invoked (FindOne path); Invoked (InsertOne data)],
       Returned (makeResponse "Ok" StatusOK))
  | Some d =>
      match applyUpdate data d with
      | inl msg =>
          (db, [Invoked (FindOne path); Invoked (UpdateOne path data)],
           Returned (makeResponse msg StatusBadRequest))
      | inr d' =>
          (replaceFirst path d' db,
           [Invoked (FindOne path); Invoked (UpdateOne path data)],
           Returned (makeResponse "Ok" StatusOK))
      end
  end.
Proof.
  unfold createOrUpdateItem, getSR, call. simpl.
  destruct (List.find (selects path) db) as [d|] eqn:Hf; simpl;
    [|reflexivity].
  rewrite Hf. destruct (applyUpdate _ d); reflexivity.
Qed.

Lemma run_deleteItem (path : string) (db : list (gmap string any)) :
  run (exec applyUpdate) (deleteItem path) db =
  (fst (deleteFirst path db), [Invoked (DeleteOne path)],
   Returned (makeResponse
               ("Deleted count: " ++ fmt_d (snd (deleteFirst path db)))
               StatusOK)).
Proof.
  unfold deleteItem, call. simpl.
  destruct (deleteFirst path db); reflexivity.
Qed.

(** A store whose lookup breaks makes every operation that starts with a
    lookup panic: the error branches of the program are live. *)
Lemma getSR_panics_on_error (S : Type)
    (h : forall R, StoreCall R -> S -> S * R) (path msg : string) (s : S)
    (dec : error + gmap string any) :
  h _ (FindOne path) s =
    (s, {| sr_Err := Some (errorString msg); sr_Decode := dec |}) ->
  run h (getSR path) s = (s, [Invoked (FindOne path)], Panicked msg).
Proof. intros H. unfold getSR, call. simpl. rewrite H. reflexivity. Qed.

(** The invariant of the data model is kept by each operation; by a
    merge, as long as accepted updates keep paths. *)
Lemma wellKeyed_createOrOverwriteItem (path : string) (b : gmap string any)
    (db : list (gmap string any)) :
  wellKeyed db ->
  wellKeyed (fst (fst (run (exec applyUpdate)
                           (createOrOverwriteItem path (Some b)) db))).
Proof.
  intros Hwk. rewrite run_createOrOverwriteItem.
  pose proof (selects_keyed path b) as Hsel.
  destruct (List.find (selects path) db) eqn:Hf; simpl.
  - now apply wellKeyed_replaceFirst.
  - apply find_none_docsAt in Hf. now apply (wellKeyed_append path).
Qed.

Lemma wellKeyed_createOrUpdateItem (path : string) (b : gmap string any)
    (db : list (gmap string any)) :
  keepsPath applyUpdate -> wellKeyed db ->
  wellKeyed (fst (fst (run (exec applyUpdate)
                           (createOrUpdateItem path (Some b)) db))).
Proof.
  intros Hkeep Hwk. rewrite run_createOrUpdateItem.
  pose proof (selects_keyed path b) as Hsel.
  destruct (List.find (selects path) db) as [d|] eqn:Hf; simpl.
  - destruct (applyUpdate _ d) as [msg|d'] eqn:Hu; simpl; [exact Hwk|].
    apply wellKeyed_replaceFirst; [|exact Hwk].
    apply List.find_some in Hf as [_ Hd]. exact (Hkeep _ _ _ _ Hd Hu).
  - apply find_none_docsAt in Hf. now apply (wellKeyed_append path).
Qed.

Lemma wellKeyed_deleteItem (path : string) (db : list (gmap string any)) :
  wellKeyed db ->
  wellKeyed (fst (fst (run (exec applyUpdate) (deleteItem path) db))).
Proof.
  intros Hwk. rewrite run_deleteItem. simpl. now apply wellKeyed_deleteFirst.
Qed.

(** What is left of the handler once the operation has returned makes no
    call: the collection after a request is the one the operation left. *)
Lemma mainHandler_collection (rw : ResponseWriter) (req : Request)
    (db : list (gmap string any)) :
  let after (m : Prog (GoMap * Z)) := fst (fst (run (exec applyUpdate) m db)) in
  let db' :=
    fst (fst (run (exec applyUpdate) (mainHandler json_Unmarshal rw req) db))
  in
  db' = db \/
  (exists b, db' = after (createOrUpdateItem (RequestURI req) (Some b))) \/
  (exists b, db' = after (createOrOverwriteItem (RequestURI req) (Some b))) \/
  db' = after (deleteItem (RequestURI req)).
Proof.
  intros after db'. subst db'.
  assert (Htail : forall (op : Prog (GoMap * Z)),
    fst (fst (run (exec applyUpdate)
      (bind op (fun r =>
         bind (rw_WriteHeader
                 (Header_Set rw "Content-Type" "application/json") (snd r))
              (fun rw' => match json_Marshal (fst r) with
                          | inl err => log_Panic err
                          | inr json_bytes => Ret (rw_Write rw' json_bytes)
                          end))) db)) = after op).
  { intros op. unfold after. rewrite run_bind.
    destruct (run (exec applyUpdate) op db) as [[db1 calls] [r|msg]];
      [|reflexivity].
    unfold rw_WriteHeader.
    destruct ((snd r <? 100)%Z || (999 <? snd r)%Z); reflexivity. }
  unfold mainHandler, readBody.
  destruct (io_ReadAll (Body req)) as [e|bytes]; simpl; [now left|].
  destruct (negb (String.length bytes =? 0)%nat); simpl.
  - destruct (jsonToMap json_Unmarshal bytes) as [m [e|]]; simpl;
      [now left|].
    destruct (String.eqb (Method req) MethodGet).
    { left. rewrite Htail. unfold after. now rewrite run_getItem. }
    destruct (String.eqb (Method req) MethodPost).
    { rewrite Htail. destruct m as [b|]; [right; left; now exists b|].
      now left. }
    destruct (String.eqb (Method req) MethodPut).
    { rewrite Htail. destruct m as [b|]; [right; right; left; now exists b|].
      now left. }
    destruct (String.eqb (Method req) MethodDelete).
    { rewrite Htail. now right; right; right. }
    now left.
  - destruct (String.eqb (Method req) MethodGet).
    { left. rewrite Htail. unfold after. now rewrite run_getItem. }
    destruct (String.eqb (Method req) MethodPost); [now left|].
    destruct (String.eqb (Method req) MethodPut); [now left|].
    destruct (String.eqb (Method req) MethodDelete).
    { rewrite Htail. now right; right; right. }
    now left.
Qed.

(** Served from a collection that satisfies it, a sequence of requests
    leaves a collection that satisfies the invariant. *)
Lemma wellKeyed_session (reqs : list Request) (db : list (gmap string any)) :
  keepsPath applyUpdate -> wellKeyed db ->
  wellKeyed (snd (session json_Unmarshal applyUpdate reqs db)).
Proof.
  intros Hkeep. revert db. induction reqs as [|req rest IH]; intros db Hwk;
    simpl; [exact Hwk|].
  pose proof (mainHandler_collection freshWriter req db) as Hdb.
  destruct (run (exec applyUpdate)
              (mainHandler json_Unmarshal freshWriter req) db)
    as [[db1 calls] o]. simpl in Hdb.
  specialize (IH db1).
  destruct (session json_Unmarshal applyUpdate rest db1) as [os db2].
  simpl in *. apply IH.
  destruct Hdb as [-> | [[b ->] | [[b ->] | ->]]].
  - exact Hwk.
  - now apply wellKeyed_createOrUpdateItem.
  - now apply wellKeyed_createOrOverwriteItem.
  - now apply wellKeyed_deleteItem.
Qed.

(** After a full replace, a lookup finds the body with its path. *)
Lemma find_after_createOrOverwriteItem (path : string)
    (b : gmap string any) (db : list (gmap string any)) :
  List.find (selects path)
    (fst (fst (run (exec applyUpdate)
                   (createOrOverwriteItem path (Some b)) db))) =
  Some (<["path" := Str path]> b).
Proof.
  pose proof (selects_keyed path b) as Hsel.
  rewrite run_createOrOverwriteItem.
  destruct (List.find (selects path) db) eqn:Hf; simpl.
  - rewrite find_docsAt, docsAt_replaceFirst by exact Hsel.
    rewrite find_docsAt in Hf. destruct (docsAt path db); [discriminate|].
    reflexivity.
  - apply find_none_docsAt in Hf.
    rewrite find_docsAt, docsAt_app, Hf. simpl. now rewrite Hsel.
Qed.

(** ** Claims *)

(** C2. [getItem] (GET) returns a stored document whose [path] field is
    [p], with status 200, when the collection has one (the only one, when
    there is only one); it returns the envelope with message "No item
    found" and status 404, with status 404, when it has none, in
    particular on the empty collection.  The collection is left as it
    was. *)
Theorem getItem_found_or_404 (p : string) (db : list (gmap string any)) :
  ((exists d, In d db /\ d !! "path" = Some (Str p)) ->
   exists d, In d db /\ d !! "path" = Some (Str p) /\
     (forall d', docsAt p db = [d'] -> d = d') /\
     run (exec applyUpdate) (getItem p) db =
       (db, [Invoked (FindOne p)], Returned (Some d, 200%Z))) /\
  ((forall d, In d db -> d !! "path" <> Some (Str p)) ->
   run (exec applyUpdate) (getItem p) db =
     (db, [Invoked (FindOne p)],
      Returned (Some (envelope "No item found" 404), 404%Z))) /\
  run (exec applyUpdate) (getItem p) [] =
    ([], [Invoked (FindOne p)],
     Returned (Some (envelope "No item found" 404), 404%Z)).
Proof.
  rewrite !run_getItem, find_docsAt. repeat split.
  - intros (d & Hin & Hp).
    assert (Hd : In d (docsAt p db)) by (apply docsAt_In; auto).
    destruct (docsAt p db) as [|d0 rest] eqn:Hdocs; [destruct Hd|].
    exists d0. assert (H0 : In d0 (docsAt p db)) by (rewrite Hdocs; now left).
    apply docsAt_In in H0 as [H0 H1]. repeat split; auto.
    intros d' [= -> _]. reflexivity.
  - intros Hnone. destruct (docsAt p db) as [|d0 rest] eqn:Hdocs;
      [reflexivity|].
    assert (H0 : In d0 (docsAt p db)) by (rewrite Hdocs; now left).
    apply docsAt_In in H0 as [H0 H1]. now destruct (Hnone d0 H0).
Qed.

(** C3. [createOrUpdateItem] (POST) on a path that has a document: when
    the collection's update call made for the request is rejected with
    error [err], the result is the envelope whose message is
    [err.Error()] and whose status is 400, with status 400; the lookup
    and that update are the only calls; the collection is as before, and
    GET on the path still returns the document it returned before. *)
Theorem createOrUpdateItem_rejected (p : string) (u : gmap string any)
    (db : list (gmap string any)) (err : error) :
  docsAt p db <> [] ->
  snd (exec applyUpdate _ (UpdateOne p (<["path" := Str p]> u)) db)
    = Some err ->
  run (exec applyUpdate) (createOrUpdateItem p (Some u)) db =
    (db,
     [Invoked (FindOne p); Invoked (UpdateOne p (<["path" := Str p]> u))],
     Returned (Some (envelope (Error err) 400), 400%Z)) /\
  exists d,
    head (docsAt p db) = Some d /\
    run (exec applyUpdate) (getItem p) db =
      (db, [Invoked (FindOne p)], Returned (Some d, 200%Z)) /\
    run (exec applyUpdate) (getItem p)
        (fst (fst (run (exec applyUpdate)
                       (createOrUpdateItem p (Some u)) db))) =
      (db, [Invoked (FindOne p)], Returned (Some d, 200%Z)).
Proof.
  intros Hex Hrej. rewrite run_createOrUpdateItem, !run_getItem.
  rewrite find_docsAt in *. simpl in Hrej. rewrite find_docsAt in Hrej.
  destruct (docsAt p db) as [|d rest] eqn:Hd; [congruence|]. simpl in *.
  destruct (applyUpdate _ d) as [msg|d']; simpl in Hrej; [|discriminate].
  injection Hrej as <-. split; [reflexivity|].
  exists d. split; [reflexivity|]. split; [reflexivity|].
  cbn [fst]. rewrite find_docsAt, Hd. reflexivity.
Qed.

(** C4. [deleteItem] (DELETE) always returns status 200 with the envelope
    whose message is "Deleted count: N" and whose status is 200: N is 1
    when a document had the path, and then, if it was the only one, a
    following [getItem] gives the "No item found" envelope with 404; N is
    0 when none had it, and then the collection is unchanged. *)
Theorem deleteItem_reports_count (p : string) (db : list (gmap string any)) :
  exists db' msg,
    run (exec applyUpdate) (deleteItem p) db =
      (db', [Invoked (DeleteOne p)],
       Returned (Some (envelope msg 200), 200%Z)) /\
    (docsAt p db <> [] ->
       msg = "Deleted count: 1" /\
       S (length db') = length db /\
       ((length (docsAt p db) <= 1)%nat ->
        run (exec applyUpdate) (getItem p) db' =
          (db', [Invoked (FindOne p)],
           Returned (Some (envelope "No item found" 404), 404%Z)))) /\
    (docsAt p db = [] -> msg = "Deleted count: 0" /\ db' = db).
Proof.
  rewrite run_deleteItem. do 2 eexists. split; [reflexivity|].
  rewrite deleteFirst_count. split.
  - intros Hex. destruct (docsAt p db) as [|d rest] eqn:Hd; [congruence|].
    split; [reflexivity|]. split.
    + clear Hex. revert d rest Hd.
      induction db as [|x db IH]; simpl; [discriminate|].
      intros d rest. destruct (selects p x); [reflexivity|].
      intros Hd. specialize (IH _ _ Hd).
      destruct (deleteFirst p db); simpl in *. now rewrite IH.
    + intros Hle. rewrite run_getItem, find_docsAt, docsAt_deleteFirst, Hd.
      destruct rest; [reflexivity|simpl in Hle; lia].
  - intros Hd. rewrite Hd. split; [reflexivity|].
    now rewrite deleteFirst_none.
Qed.

(** C5. Whatever the method and the path, a request whose body is not
    empty and is rejected by the JSON decoder is answered with the
    envelope whose message is "Error reading JSON body" and whose status
    is 400, sent with status 400, and no call to the collection is made,
    whatever the store. *)
Theorem mainHandler_bad_json (req : Request) (bytes : string) (err : error) :
  Body req = Delivers bytes ->
  bytes <> EmptyString ->
  json_Unmarshal bytes = inl err ->
  mainHandler json_Unmarshal freshWriter req =
    Ret (sent (Some (envelope "Error reading JSON body" 400), 400%Z)) /\
  forall (S : Type) (h : forall R, StoreCall R -> S -> S * R) (s : S),
    run h (mainHandler json_Unmarshal freshWriter req) s =
      (s, [],
       Returned (sent (Some (envelope "Error reading JSON body" 400),
                       400%Z))).
Proof.
  intros Hbody Hne Herr.
  assert (H : mainHandler json_Unmarshal freshWriter req =
              Ret (sent (Some (envelope "Error reading JSON body" 400),
                         400%Z))).
  { unfold mainHandler, readBody, jsonToMap. rewrite Hbody. simpl.
    destruct bytes as [|c bytes]; [congruence|]. simpl.
    rewrite Herr. reflexivity. }
  split; [exact H|]. intros S h s. rewrite H. reflexivity.
Qed.

(** C6, as the code has it.  A request whose method is none of GET, POST,
    PUT and DELETE, and whose body is empty or accepted by the JSON
    decoder, is answered with the envelope whose message is "Unsupported
    method" and whose status is 400, whatever the path.  A request whose
    body is not empty and is rejected by the decoder is answered with the
    envelope "Error reading JSON body", status 400, whatever the method,
    supported or not.  In both cases no call to the collection is
    made. *)
Theorem mainHandler_unsupported_method (req : Request) (bytes : string) :
  Body req = Delivers bytes ->
  (~ supported (Method req) ->
   (bytes = EmptyString \/ exists m, json_Unmarshal bytes = inr m) ->
   mainHandler json_Unmarshal freshWriter req =
     Ret (sent (Some (envelope "Unsupported method" 400), 400%Z)) /\
   forall (S : Type) (h : forall R, StoreCall R -> S -> S * R) (s : S),
     run h (mainHandler json_Unmarshal freshWriter req) s =
       (s, [],
        Returned (sent (Some (envelope "Unsupported method" 400), 400%Z))))
  /\
  (bytes <> EmptyString ->
   (exists err, json_Unmarshal bytes = inl err) ->
   mainHandler json_Unmarshal freshWriter req =
     Ret (sent (Some (envelope "Error reading JSON body" 400), 400%Z)) /\
   forall (S : Type) (h : forall R, StoreCall R -> S -> S * R) (s : S),
     run h (mainHandler json_Unmarshal freshWriter req) s =
       (s, [],
        Returned (sent (Some (envelope "Error reading JSON body" 400),
                        400%Z)))).
Proof.
  intros Hbody. split.
  - intros Hm Hok.
    assert (Hg : String.eqb (Method req) MethodGet = false).
    { apply String.eqb_neq. intros E. apply Hm. left. exact E. }
    assert (Hpo : String.eqb (Method req) MethodPost = false).
    { apply String.eqb_neq. intros E. apply Hm. right. left. exact E. }
    assert (Hpu : String.eqb (Method req) MethodPut = false).
    { apply String.eqb_neq. intros E. apply Hm. right. right. left.
      exact E. }
    assert (Hd : String.eqb (Method req) MethodDelete = false).
    { apply String.eqb_neq. intros E. apply Hm. right. right. right.
      exact E. }
    assert (H : mainHandler json_Unmarshal freshWriter req =
                Ret (sent (Some (envelope "Unsupported method" 400),
                           400%Z))).
    { unfold mainHandler, readBody, jsonToMap. rewrite Hbody. simpl.
      destruct Hok as [-> | [m Hdec]].
      - simpl. rewrite Hg, Hpo, Hpu, Hd. reflexivity.
      - destruct bytes as [|c bytes]; simpl.
        + rewrite Hg, Hpo, Hpu, Hd. reflexivity.
        + rewrite Hdec. simpl. rewrite Hg, Hpo, Hpu, Hd. reflexivity. }
    split; [exact H|]. intros S h s. rewrite H. reflexivity.
  - intros Hne [err Herr].
    assert (H : mainHandler json_Unmarshal freshWriter req =
                Ret (sent (Some (envelope "Error reading JSON body" 400),
                           400%Z))).
    { unfold mainHandler, readBody, jsonToMap. rewrite Hbody. simpl.
      destruct bytes as [|c bytes]; [congruence|]. simpl.
      rewrite Herr. reflexivity. }
    split; [exact H|]. intros S h s. rewrite H. reflexivity.
Qed.

(** C8. On a path that has no document, POST and PUT of the same object
    body do the same: both look the path up, insert the body with [path]
    set, return the "Ok" envelope with status 200, and leave the same
    collection; so do the two requests through the handler. *)
Theorem post_as_put_on_new_path (p : string) (b : gmap string any)
    (db : list (gmap string any)) :
  docsAt p db = [] ->
  run (exec applyUpdate) (createOrUpdateItem p (Some b)) db =
    run (exec applyUpdate) (createOrOverwriteItem p (Some b)) db /\
  run (exec applyUpdate) (createOrUpdateItem p (Some b)) db =
    ((db ++ [<["path" := Str p]> b])%list,
     [Invoked (FindOne p); Invoked (InsertOne (<["path" := Str p]> b))],
     Returned (makeResponse "Ok" 200)) /\
  forall (rw : ResponseWriter) (payload : ReadCloser),
    run (exec applyUpdate)
        (mainHandler json_Unmarshal rw
           {| Method := MethodPost; RequestURI := p; Body := payload |}) db =
    run (exec applyUpdate)
        (mainHandler json_Unmarshal rw
           {| Method := MethodPut; RequestURI := p; Body := payload |}) db.
Proof.
  intros Hnone. apply find_none_docsAt in Hnone.
  rewrite run_createOrUpdateItem, run_createOrOverwriteItem, Hnone.
  split; [reflexivity|]. split; [reflexivity|].
  intros rw payload. unfold mainHandler, readBody. simpl.
  destruct payload as [bytes|e]; simpl; [|reflexivity].
  destruct (negb (String.length bytes =? 0)%nat); simpl.
  - destruct (jsonToMap json_Unmarshal bytes) as [[m|] [e|]]; simpl;
      try reflexivity.
    unfold createOrUpdateItem, createOrOverwriteItem, getSR, call. simpl.
    rewrite Hnone. reflexivity.
  - reflexivity.
Qed.

(** C9. A PUT or POST request with an empty body: [readBody] gives the nil
    map and no error, and the handler panics on the assignment
    [data["path"] = path] before any call to the collection and before
    anything is sent: no response is produced. *)
Theorem mainHandler_empty_body_panics (req : Request) :
  Method req = MethodPut \/ Method req = MethodPost ->
  Body req = Delivers EmptyString ->
  readBody json_Unmarshal req = Ret (None, None) /\
  (forall rw : ResponseWriter,
     mainHandler json_Unmarshal rw req =
       Panic "assignment to entry in nil map") /\
  forall (rw : ResponseWriter) (S : Type)
         (h : forall R, StoreCall R -> S -> S * R) (s : S),
    run h (mainHandler json_Unmarshal rw req) s =
      (s, [], Panicked "assignment to entry in nil map").
Proof.
  intros Hm Hbody.
  assert (Hr : readBody json_Unmarshal req = Ret (None, None)).
  { unfold readBody. rewrite Hbody. reflexivity. }
  assert (H : forall rw, mainHandler json_Unmarshal rw req =
                         Panic "assignment to entry in nil map").
  { intros rw. unfold mainHandler. rewrite Hr. simpl.
    destruct Hm as [-> | ->]; reflexivity. }
  split; [exact Hr|]. split; [exact H|].
  intros rw S h s. rewrite H. reflexivity.
Qed.

(** C10. [createOrUpdateItem] on a path that has a document: the update
    document handed to the collection's update call is the body with the
    entry [path = p] written into it.  It has the top-level key [path],
    which is not an operator, next to all the other fields of the body. *)
Theorem createOrUpdateItem_update_document (p : string)
    (b : gmap string any) (db : list (gmap string any)) :
  docsAt p db <> [] ->
  exists db' out update,
    run (exec applyUpdate) (createOrUpdateItem p (Some b)) db =
      (db', [Invoked (FindOne p); Invoked (UpdateOne p update)], out) /\
    update = <["path" := Str p]> b /\
    update !! "path" = Some (Str p) /\
    isOperator "path" = false /\
    (forall k, k <> "path" -> update !! k = b !! k) /\
    (b !! "path" <> Some (Str p) -> update <> b).
Proof.
  intros Hex. rewrite run_createOrUpdateItem, find_docsAt.
  destruct (docsAt p db) as [|d rest]; [congruence|]. simpl.
  assert (Hdoc : forall u : gmap string any,
             u = <["path" := Str p]> b ->
             u !! "path" = Some (Str p) /\
             isOperator "path" = false /\
             (forall k, k <> "path" -> u !! k = b !! k) /\
             (b !! "path" <> Some (Str p) -> u <> b)).
  { intros u ->. split; [apply lookup_insert_eq|]. split; [reflexivity|].
    split.
    - intros k Hk. now apply lookup_insert_ne.
    - intros Hb E. apply Hb. rewrite <- E. apply lookup_insert_eq. }
  destruct (applyUpdate _ d); do 3 eexists;
    (split; [reflexivity|]); (split; [reflexivity|]); now apply Hdoc.
Qed.

End Properties.

(** ** The operations on the collection with the database's rules *)

Section StoreProperties.

Variable admitInsert : list (gmap string any) -> gmap string any ->
                       string + gmap string any.
Variable admitReplace : gmap string any -> gmap string any ->
                        string + gmap string any.
Variable applyUpdate : gmap string any -> gmap string any ->
                       string + gmap string any.

(** [exec] is the store that admits every insert and every replacement
    as it is handed. *)
Lemma exec_is_store (R : Type) (c : StoreCall R)
    (db : list (gmap string any)) :
  exec applyUpdate R c db =
  store (fun _ d => inr d) (fun _ r => inr r) applyUpdate R c db.
Proof.
  destruct c; simpl; try reflexivity.
  destruct (List.find (selects path) db) eqn:Hf; [reflexivity|].
  apply find_none_docsAt in Hf. now rewrite replaceFirst_none.
Qed.

Lemma makeResponse_is_envelope (msg : string) (status : Z) :
  makeResponse msg status = (Some (envelope msg status), status).
Proof. reflexivity. Qed.

Lemma run_getItem_store (path : string) (db : list (gmap string any)) :
  run (store admitInsert admitReplace applyUpdate) (getItem path) db =
  (db, [Invoked (FindOne path)],
   Returned match List.find (selects path) db with
            | Some d => (Some d, StatusOK)
            | None => makeResponse "No item found" StatusNotFound
            end).
Proof.
  unfold getItem, getSR, call. simpl.
  destruct (List.find (selects path) db); reflexivity.
Qed.

Lemma run_createOrOverwriteItem_store (path : string) (b : gmap string any)
    (db : list (gmap string any)) :
  let data := <["path" := Str path]> b in
  run (store admitInsert admitReplace applyUpdate)
      (createOrOverwriteItem path (Some b)) db =
  match List.find (selects path) db with
  | None =>
      match admitInsert db data with
      | inr d =>
          ((db ++ [d])%list,
           [Invoked (FindOne path); Invoked (InsertOne data)],
           Returned (makeResponse "Ok" StatusOK))
      | inl msg =>
          (db, [Invoked (FindOne path); Invoked (InsertOne data)],
           Panicked msg)
      end
  | Some old =>
      match admitReplace old data with
      | inr d =>
          (replaceFirst path d db,
           [Invoked (FindOne path); Invoked (ReplaceOne path data)],
           Returned (makeResponse "Ok" StatusOK))
      | inl msg =>
          (db, [Invoked (FindOne path); Invoked (ReplaceOne path data)],
           Panicked msg)
      end
  end.
Proof.
  unfold createOrOverwriteItem, getSR, call. simpl.
  destruct (List.find (selects path) db) as [old|] eqn:Hf; simpl.
  - rewrite Hf. destruct (admitReplace old _); reflexivity.
  - destruct (admitInsert db _); reflexivity.
Qed.

Lemma run_createOrUpdateItem_store_new (path : string)
    (b : gmap string any) (db : list (gmap string any)) :
  let data := <["path" := Str path]> b in
  List.find (selects path) db = None ->
  run (store admitInsert admitReplace applyUpdate)
      (createOrUpdateItem path (Some b)) db =
  match admitInsert db data with
  | inr d =>
      ((db ++ [d])%list,
       [Invoked (FindOne path); Invoked (InsertOne data)],
       Returned (makeResponse "Ok" StatusOK))
  | inl msg =>
      (db, [Invoked (FindOne path); Invoked (InsertOne data)], Panicked msg)
  end.
Proof.
  intros data Hf. unfold createOrUpdateItem, getSR, call. simpl.
  rewrite Hf. simpl. destruct (admitInsert db _); reflexivity.
Qed.

(** A document that agrees with the one handed on [path] is selected by
    the path. *)
Lemma selects_agreeing (path : string) (b d : gmap string any) :
  (forall k, k <> "_id" -> d !! k = (<["path" := Str path]> b) !! k) ->
  selects path d = true.
Proof.
  intros H. apply selects_spec. rewrite H by discriminate.
  apply lookup_insert_eq.
Qed.

(** After a PUT that returned, a lookup finds a document with the fields
    of the body and the path. *)
Lemma find_after_put_store (path : string) (b : gmap string any)
    (db db' : list (gmap string any)) (calls : list Invocation)
    (r : GoMap * Z) :
  keepsDocuments admitInsert admitReplace ->
  run (store admitInsert admitReplace applyUpdate)
      (createOrOverwriteItem path (Some b)) db = (db', calls, Returned r) ->
  exists d,
    List.find (selects path) db' = Some d /\
    (forall k, k <> "_id" -> d !! k = (<["path" := Str path]> b) !! k) /\
    docsAt path db' = d :: tail (docsAt path db) /\
    (forall old, List.find (selects path) db = Some old ->
                 d !! "_id" = old !! "_id" /\
                 admitReplace old (<["path" := Str path]> b) = inr d).
Proof.
  intros (Hins & Hrep & _). rewrite run_createOrOverwriteItem_store.
  destruct (List.find (selects path) db) as [old|] eqn:Hf.
  - destruct (admitReplace old _) as [msg|d] eqn:Ha; [discriminate|].
    intros [= <- _ _]. destruct (Hrep _ _ _ Ha) as [Hk Hid].
    pose proof (selects_agreeing path b d Hk) as Hsel.
    assert (Hdocs : docsAt path (replaceFirst path d db)
                    = d :: tail (docsAt path db)).
    { rewrite docsAt_replaceFirst by exact Hsel.
      rewrite find_docsAt in Hf. now destruct (docsAt path db). }
    exists d. split; [now rewrite find_docsAt, Hdocs|].
    split; [exact Hk|]. split; [exact Hdocs|].
    intros old' [= <-]. now split.
  - destruct (admitInsert db _) as [msg|d] eqn:Ha; [discriminate|].
    intros [= <- _ _]. pose proof (Hins _ _ _ Ha) as Hk.
    pose proof (selects_agreeing path b d Hk) as Hsel.
    apply find_none_docsAt in Hf.
    assert (Hdocs : docsAt path (db ++ [d])%list
                    = d :: tail (docsAt path db)).
    { rewrite docsAt_app, Hf. simpl. now rewrite Hsel. }
    exists d. split; [now rewrite find_docsAt, Hdocs|].
    split; [exact Hk|]. split; [exact Hdocs|]. discriminate.
Qed.

(** C1, as the code has it.  [createOrOverwriteItem] (PUT) with an object
    body [b] looks the path up and hands [b] with [path] set to the
    store: to [InsertOne] when no document has the path, to [ReplaceOne]
    when one has.  When the store admits the write, the result is the
    envelope with message "Ok" and status 200, with status 200; the
    document is appended, or takes the place of the first one of the
    path; it has the fields of [b] and the path, [_id] apart, and a
    replacement keeps the [_id] of the document it replaces.  When the
    store refuses the write, the operation panics with the text of the
    error and the collection is as before.  After a PUT that returned, if
    at most one document had the path before, exactly one has it.
    Documents of other paths are untouched. *)
Theorem createOrOverwriteItem_upserts (p : string) (b : gmap string any)
    (db : list (gmap string any)) :
  keepsDocuments admitInsert admitReplace ->
  let data := <["path" := Str p]> b in
  let put :=
    run (store admitInsert admitReplace applyUpdate)
        (createOrOverwriteItem p (Some b)) db in
  (docsAt p db = [] ->
   (forall d, admitInsert db data = inr d ->
      put = ((db ++ [d])%list,
             [Invoked (FindOne p); Invoked (InsertOne data)],
             Returned (Some (envelope "Ok" 200), 200%Z)) /\
      docsAt p (db ++ [d])%list = [d] /\
      (forall k, k <> "_id" -> d !! k = data !! k)) /\
   (forall msg, admitInsert db data = inl msg ->
      put = (db, [Invoked (FindOne p); Invoked (InsertOne data)],
             Panicked msg))) /\
  (forall old rest, docsAt p db = old :: rest ->
   (forall d, admitReplace old data = inr d ->
      exists db',
        put = (db', [Invoked (FindOne p); Invoked (ReplaceOne p data)],
               Returned (Some (envelope "Ok" 200), 200%Z)) /\
        docsAt p db' = d :: rest /\ length db' = length db /\
        (forall k, k <> "_id" -> d !! k = data !! k) /\
        d !! "_id" = old !! "_id") /\
   (forall msg, admitReplace old data = inl msg ->
      put = (db, [Invoked (FindOne p); Invoked (ReplaceOne p data)],
             Panicked msg))) /\
  (forall db' calls r,
     put = (db', calls, Returned r) ->
     (length (docsAt p db) <= 1)%nat ->
     exists d,
       docsAt p db' = [d] /\ List.find (selects p) db' = Some d /\
       (forall k, k <> "_id" -> d !! k = data !! k)) /\
  (forall q, q <> p -> docsAt q (fst (fst put)) = docsAt q db).
Proof.
  intros Hkeep data put. pose proof Hkeep as (Hins & Hrep & _).
  subst put. split; [|split; [|split]].
  - intros Hnone. pose proof Hnone as Hf. apply find_none_docsAt in Hf.
    rewrite run_createOrOverwriteItem_store, Hf. fold data. split.
    + intros d Ha. rewrite Ha. pose proof (Hins _ _ _ Ha) as Hk.
      split; [reflexivity|]. split; [|exact Hk].
      rewrite docsAt_app, Hnone. simpl.
      now rewrite (selects_agreeing p b d Hk).
    + intros msg Ha. now rewrite Ha.
  - intros old rest Hdocs.
    assert (Hf : List.find (selects p) db = Some old)
      by now rewrite find_docsAt, Hdocs.
    rewrite run_createOrOverwriteItem_store, Hf. fold data. split.
    + intros d Ha. rewrite Ha. destruct (Hrep _ _ _ Ha) as [Hk Hid].
      eexists. split; [reflexivity|].
      split; [|split; [apply length_replaceFirst|now split]].
      rewrite docsAt_replaceFirst, Hdocs; [reflexivity|].
      exact (selects_agreeing p b d Hk).
    + intros msg Ha. now rewrite Ha.
  - intros db' calls r Hrun Hle.
    destruct (find_after_put_store p b db db' calls r Hkeep Hrun)
      as (d & Hfind & Hk & Hdocs & _).
    exists d. split; [|now split]. rewrite Hdocs.
    destruct (docsAt p db) as [|x [|y rest]]; simpl in *;
      [reflexivity|reflexivity|lia].
  - intros q Hne. rewrite run_createOrOverwriteItem_store. fold data.
    destruct (List.find (selects p) db) as [old|] eqn:Hf.
    + destruct (admitReplace old data) as [msg|d] eqn:Ha; [reflexivity|].
      destruct (Hrep _ _ _ Ha) as [Hk _]. simpl.
      apply docsAt_replaceFirst_other; [|exact Hne].
      exact (selects_agreeing p b d Hk).
    + destruct (admitInsert db data) as [msg|d] eqn:Ha; [reflexivity|].
      pose proof (Hins _ _ _ Ha) as Hk. simpl. rewrite docsAt_app. simpl.
      rewrite (selects_one_path p q d (selects_agreeing p b d Hk) Hne).
      apply app_nil_r.
Qed.

(** C7, as the code has it.  After PUT of [bodyA] and then PUT of [bodyB]
    on the same path, both admitted by the store, GET returns with status
    200 a document that has the fields of [bodyB] and the path, and for
    [_id] the one of the document the second PUT replaced (the one the
    store gave at the insert, or the one [bodyA] brought); no other field
    of [bodyA] is in it.  A further PUT of [bodyB] returns the "Ok"
    envelope and leaves the collection, and so the result of GET, as they
    were. *)
Theorem put_put_get (p : string) (bodyA bodyB : gmap string any)
    (db db1 db2 : list (gmap string any)) (calls1 calls2 : list Invocation)
    (r1 r2 : GoMap * Z) :
  keepsDocuments admitInsert admitReplace ->
  let st := store admitInsert admitReplace applyUpdate in
  run st (createOrOverwriteItem p (Some bodyA)) db
    = (db1, calls1, Returned r1) ->
  run st (createOrOverwriteItem p (Some bodyB)) db1
    = (db2, calls2, Returned r2) ->
  exists d,
    run st (getItem p) db2 =
      (db2, [Invoked (FindOne p)], Returned (Some d, 200%Z)) /\
    (forall k, k <> "_id" -> d !! k = (<["path" := Str p]> bodyB) !! k) /\
    (exists old, List.find (selects p) db1 = Some old /\
                 d !! "_id" = old !! "_id") /\
    run st (createOrOverwriteItem p (Some bodyB)) db2 =
      (db2,
       [Invoked (FindOne p);
        Invoked (ReplaceOne p (<["path" := Str p]> bodyB))],
       Returned (Some (envelope "Ok" 200), 200%Z)) /\
    run st (getItem p)
        (fst (fst (run st (createOrOverwriteItem p (Some bodyB)) db2))) =
      (db2, [Invoked (FindOne p)], Returned (Some d, 200%Z)).
Proof.
  intros Hkeep st Hput1 Hput2. pose proof Hkeep as (_ & _ & Hstable).
  destruct (find_after_put_store p bodyA db db1 calls1 r1 Hkeep Hput1)
    as (old & Hf1 & _).
  destruct (find_after_put_store p bodyB db1 db2 calls2 r2 Hkeep Hput2)
    as (d & Hf2 & Hk & _ & Hold).
  destruct (Hold old Hf1) as [Hid Ha].
  assert (Hget : run st (getItem p) db2 =
            (db2, [Invoked (FindOne p)], Returned (Some d, 200%Z))).
  { unfold st. rewrite run_getItem_store, Hf2. reflexivity. }
  assert (Hput3 : run st (createOrOverwriteItem p (Some bodyB)) db2 =
            (db2,
             [Invoked (FindOne p);
              Invoked (ReplaceOne p (<["path" := Str p]> bodyB))],
             Returned (Some (envelope "Ok" 200), 200%Z))).
  { unfold st. rewrite run_createOrOverwriteItem_store, Hf2.
    rewrite (Hstable _ _ _ Ha), (replaceFirst_same _ _ _ Hf2).
    reflexivity. }
  exists d. split; [exact Hget|]. split; [exact Hk|].
  split; [now exists old|]. split; [exact Hput3|].
  rewrite Hput3. exact Hget.
Qed.

(** X13. On a path that has no document, POST of an object body that the
    store admits returns the envelope with message "Ok" and status 200,
    and GET then returns, with status 200, the document the store made of
    it: the fields of the body and the path, [_id] apart. *)
Theorem post_then_get_new_path (p : string) (b d : gmap string any)
    (db : list (gmap string any)) :
  keepsDocuments admitInsert admitReplace ->
  docsAt p db = [] ->
  admitInsert db (<["path" := Str p]> b) = inr d ->
  let st := store admitInsert admitReplace applyUpdate in
  run st (createOrUpdateItem p (Some b)) db =
    ((db ++ [d])%list,
     [Invoked (FindOne p); Invoked (InsertOne (<["path" := Str p]> b))],
     Returned (Some (envelope "Ok" 200), 200%Z)) /\
  run st (getItem p) (db ++ [d])%list =
    ((db ++ [d])%list, [Invoked (FindOne p)], Returned (Some d, 200%Z)) /\
  (forall k, k <> "_id" -> d !! k = (<["path" := Str p]> b) !! k).
Proof.
  intros (Hins & _) Hnone Ha st. pose proof (Hins _ _ _ Ha) as Hk.
  pose proof Hnone as Hf. apply find_none_docsAt in Hf.
  split; [|split; [|exact Hk]].
  - unfold st. rewrite (run_createOrUpdateItem_store_new p b db Hf), Ha.
    reflexivity.
  - unfold st. rewrite run_getItem_store, find_docsAt, docsAt_app, Hnone.
    simpl. now rewrite (selects_agreeing p b d Hk).
Qed.

End StoreProperties.

(** ** The sample instances *)

(** The sample update semantics rejects every update document the
    handler sends: its [path] key is not an operator. *)
Lemma sample_update_rejected (path : string) (u d : gmap string any) :
  Sample.applyUpdate (<["path" := Str path]> u) d =
  inl "Unknown modifier. Expected a valid update modifier".
Proof.
  unfold Sample.applyUpdate.
  destruct (forallb isOperator
              (map fst (map_to_list (<["path" := Str path]> u)))) eqn:Hall;
    [|reflexivity].
  rewrite forallb_forall in Hall.
  assert (Hin : In "path" (map fst (map_to_list (<["path" := Str path]> u)))).
  { apply (in_map fst _ ("path", Str path)).
    apply list_elem_of_In, elem_of_map_to_list, lookup_insert_eq. }
  apply Hall in Hin. discriminate Hin.
Qed.

Lemma sample_update_keepsPath : keepsPath Sample.applyUpdate.
Proof.
  intros path u d d' _ Hu. rewrite sample_update_rejected in Hu.
  discriminate Hu.
Qed.

Lemma wellKeyed_sample_session (reqs : list Request) :
  wellKeyed (snd (session Sample.json_Unmarshal Sample.applyUpdate reqs [])).
Proof.
  apply wellKeyed_session; [apply sample_update_keepsPath|apply wellKeyed_nil].
Qed.

Example sample_decodes_object :
  Sample.json_Unmarshal Sample.json_name_x = inr (Some {["name" := Str "x"]}).
Proof. vm_compute. reflexivity. Qed.

Example sample_rejects_open_brace :
  Sample.json_Unmarshal "{" =
  inl (errorString "invalid character in JSON object").
Proof. reflexivity. Qed.

(** PUT, GET, POST on the stored path, DELETE, GET, then PATCH and a PUT
    without body. *)
Example sample_session :
  session Sample.json_Unmarshal Sample.applyUpdate
    [Sample.request "PUT" Sample.json_name_x;
     Sample.request "GET" EmptyString;
     Sample.request "POST" Sample.json_name_x;
     Sample.request "DELETE" EmptyString;
     Sample.request "GET" EmptyString;
     Sample.request "PATCH" EmptyString;
     Sample.request "PUT" EmptyString] [] =
  ([Returned (sent (makeResponse "Ok" 200));
    Returned (sent (Some (<["path" := Str "/a"]> {["name" := Str "x"]}),
                    200%Z));
    Returned (sent (makeResponse
                      "Unknown modifier. Expected a valid update modifier"
                      400));
    Returned (sent (makeResponse "Deleted count: 1" 200));
    Returned (sent (makeResponse "No item found" 404));
    Returned (sent (makeResponse "Unsupported method" 400));
    Panicked "assignment to entry in nil map"],
   []).
Proof. vm_compute. reflexivity. Qed.

(** ** The claims on a sample collection *)

(** The instance of the database's rules keeps documents. *)
Lemma sameId_eq (i j : any) : Rules.sameId i j = true -> i = j.
Proof.
  destruct i, j; simpl; try discriminate.
  - intros H. apply Z.eqb_eq in H. congruence.
  - intros H. apply String.eqb_eq in H. congruence.
Qed.

Lemma rules_keepsDocuments :
  keepsDocuments Rules.admitInsert Rules.admitReplace.
Proof.
  split; [|split].
  - intros db d d'. unfold Rules.admitInsert.
    destruct (d !! "_id") as [i|].
    + destruct (existsb _ db); [discriminate|]. now intros [= <-].
    + intros [= <-] k Hk. apply lookup_insert_ne. congruence.
  - intros old r d'. unfold Rules.admitReplace.
    destruct (existsb isOperator _); [discriminate|].
    destruct (r !! "_id") as [i|] eqn:Hr, (old !! "_id") as [j|] eqn:Ho;
      try discriminate.
    + destruct (Rules.sameId i j) eqn:Hs; [|discriminate].
      intros [= <-]. apply sameId_eq in Hs. split; [reflexivity|].
      congruence.
    + intros [= <-]. split; [|apply lookup_insert_eq].
      intros k Hk. apply lookup_insert_ne. congruence.
    + intros [= <-]. split; [reflexivity|exact Hr].
  - intros old r d'. unfold Rules.admitReplace.
    destruct (existsb isOperator _); [discriminate|].
    destruct (r !! "_id") as [i|] eqn:Hr, (old !! "_id") as [j|] eqn:Ho;
      try discriminate.
    + destruct (Rules.sameId i j) eqn:Hs; [|discriminate].
      intros [= <-]. rewrite Hr. pose proof (sameId_eq _ _ Hs) as <-.
      now rewrite Hs.
    + intros [= <-]. now rewrite lookup_insert_eq.
    + intros [= <-]. now rewrite Hr.
Qed.

(** C1 on the collection that holds [/a]: PUT of [name = x] on [/a] is
    admitted and replaces the document, which keeps its [_id]. *)
Lemma createOrOverwriteItem_upserts_sample :
  exists db',
    run (store Rules.admitInsert Rules.admitReplace Sample.applyUpdate)
        (createOrOverwriteItem "/a" (Some Rules.name_x)) Rules.db_a =
      (db',
       [Invoked (FindOne "/a");
        Invoked (ReplaceOne "/a" (<["path" := Str "/a"]> Rules.name_x))],
       Returned (Some (envelope "Ok" 200), 200%Z)) /\
    docsAt "/a" db' =
      [<["_id" := Int 1]> (<["path" := Str "/a"]> Rules.name_x)].
Proof.
  destruct (createOrOverwriteItem_upserts Rules.admitInsert
              Rules.admitReplace Sample.applyUpdate "/a" Rules.name_x
              Rules.db_a rules_keepsDocuments)
    as (_ & Hreplace & _).
  destruct (Hreplace Rules.stored_a [] eq_refl) as [Hadmitted _].
  destruct (Hadmitted
              (<["_id" := Int 1]> (<["path" := Str "/a"]> Rules.name_x)))
    as (db' & Hrun & Hdocs & _).
  - vm_compute. reflexivity.
  - exists db'. split; [exact Hrun|exact Hdocs].
Defined.

(** C1 as the spec states it fails.  PUT of a body whose key starts with
    a dollar sign, on a path that has a document: the store refuses the
    replacement and the operation panics, no "Ok" is returned and the
    document stays.  PUT of [name = x] on the new path [/b]: the document
    found afterwards is not the body with the path, it has an [_id]. *)
Lemma createOrOverwriteItem_not_always_ok :
  run (store Rules.admitInsert Rules.admitReplace Sample.applyUpdate)
      (createOrOverwriteItem "/a" (Some Rules.dollar_a)) Rules.db_a =
    (Rules.db_a,
     [Invoked (FindOne "/a");
      Invoked (ReplaceOne "/a" (<["path" := Str "/a"]> Rules.dollar_a))],
     Panicked "replacement document cannot contain keys beginning with '$'")
  /\
  exists db' calls d,
    run (store Rules.admitInsert Rules.admitReplace Sample.applyUpdate)
        (createOrOverwriteItem "/b" (Some Rules.name_x)) Rules.db_a =
      (db', calls, Returned (Some (envelope "Ok" 200), 200%Z)) /\
    docsAt "/b" db' = [d] /\
    d !! "_id" = Some (Int 2) /\
    d <> <["path" := Str "/b"]> Rules.name_x.
Proof.
  split; [vm_compute; reflexivity|].
  exists (Rules.db_a ++
          [<["_id" := Int 2]> (<["path" := Str "/b"]> Rules.name_x)])%list.
  eexists. exists (<["_id" := Int 2]> (<["path" := Str "/b"]> Rules.name_x)).
  split; [vm_compute; reflexivity|]. split; [vm_compute; reflexivity|].
  split; [reflexivity|]. intros E.
  apply (f_equal (fun m : gmap string any => m !! "_id")) in E.
  vm_compute in E. discriminate E.
Qed.

(** C2 on the sample collection: GET on [/a], stored, and on [/b]. *)
Lemma getItem_found_or_404_sample :
  run (exec Sample.applyUpdate) (getItem "/a") Sample.db_a =
    (Sample.db_a, [Invoked (FindOne "/a")],
     Returned (Some Sample.doc_a, 200%Z)) /\
  run (exec Sample.applyUpdate) (getItem "/b") Sample.db_a =
    (Sample.db_a, [Invoked (FindOne "/b")],
     Returned (Some (envelope "No item found" 404), 404%Z)).
Proof.
  split.
  - destruct (getItem_found_or_404 Sample.applyUpdate "/a" Sample.db_a)
      as (Hfound & _ & _).
    destruct Hfound as (d & _ & _ & Hone & Hrun).
    { exists Sample.doc_a. split; [now left|reflexivity]. }
    rewrite Hrun, (Hone Sample.doc_a); reflexivity.
  - destruct (getItem_found_or_404 Sample.applyUpdate "/b" Sample.db_a)
      as (_ & Hnone & _).
    apply Hnone. intros d [<- | []]. vm_compute. discriminate.
Defined.

(** C3 on the sample collection: a [$set] body posted on [/a] is rejected
    for the [path] key the handler adds. *)
Lemma createOrUpdateItem_rejected_sample :
  run (exec Sample.applyUpdate)
      (createOrUpdateItem "/a" (Some Sample.set_n)) Sample.db_a =
    (Sample.db_a,
     [Invoked (FindOne "/a");
      Invoked (UpdateOne "/a" (<["path" := Str "/a"]> Sample.set_n))],
     Returned (Some (envelope
                       "Unknown modifier. Expected a valid update modifier"
                       400), 400%Z)).
Proof.
  apply (createOrUpdateItem_rejected Sample.applyUpdate "/a" Sample.set_n
           Sample.db_a
           (errorString "Unknown modifier. Expected a valid update modifier")).
  - vm_compute. discriminate.
  - vm_compute. reflexivity.
Defined.

(** C4 on the sample collection: DELETE on [/a], then GET. *)
Lemma deleteItem_reports_count_sample :
  exists db',
    run (exec Sample.applyUpdate) (deleteItem "/a") Sample.db_a =
      (db', [Invoked (DeleteOne "/a")],
       Returned (Some (envelope "Deleted count: 1" 200), 200%Z)) /\
    run (exec Sample.applyUpdate) (getItem "/a") db' =
      (db', [Invoked (FindOne "/a")],
       Returned (Some (envelope "No item found" 404), 404%Z)).
Proof.
  destruct (deleteItem_reports_count Sample.applyUpdate "/a" Sample.db_a)
    as (db' & msg & Hrun & Hsome & _).
  destruct Hsome as (-> & _ & Hget); [vm_compute; discriminate|].
  exists db'. split; [exact Hrun|]. apply Hget. vm_compute. lia.
Defined.

(** C5 for a DELETE request with the body [{]. *)
Lemma mainHandler_bad_json_sample :
  mainHandler Sample.json_Unmarshal freshWriter (Sample.request "DELETE" "{")
  = Ret (sent (Some (envelope "Error reading JSON body" 400), 400%Z)).
Proof.
  apply (mainHandler_bad_json Sample.json_Unmarshal
           (Sample.request "DELETE" "{") "{"
           (errorString "invalid character in JSON object")).
  - reflexivity.
  - discriminate.
  - reflexivity.
Defined.

(** C6 for PATCH requests, with the body [{}] and with the body [{]. *)
Lemma mainHandler_unsupported_method_sample :
  mainHandler Sample.json_Unmarshal freshWriter (Sample.request "PATCH" "{}")
    = Ret (sent (Some (envelope "Unsupported method" 400), 400%Z)) /\
  mainHandler Sample.json_Unmarshal freshWriter (Sample.request "PATCH" "{")
    = Ret (sent (Some (envelope "Error reading JSON body" 400), 400%Z)).
Proof.
  split.
  - destruct (mainHandler_unsupported_method Sample.json_Unmarshal
                (Sample.request "PATCH" "{}") "{}" eq_refl)
      as [Hfirst _].
    apply Hfirst.
    + intros [H | [H | [H | H]]]; discriminate H.
    + right. exists (Some ∅). reflexivity.
  - destruct (mainHandler_unsupported_method Sample.json_Unmarshal
                (Sample.request "PATCH" "{") "{" eq_refl)
      as [_ Hsecond].
    apply Hsecond.
    + discriminate.
    + exists (errorString "invalid character in JSON object"). reflexivity.
Defined.

(** C6 as the spec states it fails: with method PATCH and the body [{],
    which no JSON decoder accepts, the answer is "Error reading JSON
    body" and not "Unsupported method". *)
Lemma mainHandler_unsupported_method_bad_body :
  ~ supported (Method (Sample.request "PATCH" "{")) /\
  mainHandler Sample.json_Unmarshal freshWriter (Sample.request "PATCH" "{")
    = Ret (sent (Some (envelope "Error reading JSON body" 400), 400%Z)) /\
  mainHandler Sample.json_Unmarshal freshWriter (Sample.request "PATCH" "{")
    <> Ret (sent (Some (envelope "Unsupported method" 400), 400%Z)).
Proof.
  assert (H : mainHandler Sample.json_Unmarshal freshWriter
                (Sample.request "PATCH" "{")
              = Ret (sent (Some (envelope "Error reading JSON body" 400),
                           400%Z)))
    by reflexivity.
  split; [|split; [exact H|]].
  - intros [E | [E | [E | E]]]; discriminate E.
  - rewrite H. intros E.
    apply (f_equal (fun m : Prog ResponseWriter =>
                      match m with
                      | Ret w => match rw_written w with
                                 | [Some a] => a !! "message"
                                 | _ => None
                                 end
                      | _ => None
                      end)) in E.
    vm_compute in E. discriminate E.
Qed.

(** C7 from the empty collection: PUT of [name = w], then of [name = x],
    on [/a]; GET returns [name = x] with the path and the [_id] given at the
    insert. *)
Lemma put_put_get_sample :
  exists db2,
    run (store Rules.admitInsert Rules.admitReplace Sample.applyUpdate)
        (getItem "/a") db2 =
      (db2, [Invoked (FindOne "/a")],
       Returned (Some (<["_id" := Int 1]>
                         (<["path" := Str "/a"]> Rules.name_x)), 200%Z)) /\
    run (store Rules.admitInsert Rules.admitReplace Sample.applyUpdate)
        (createOrOverwriteItem "/a" (Some Rules.name_x)) db2 =
      (db2,
       [Invoked (FindOne "/a");
        Invoked (ReplaceOne "/a" (<["path" := Str "/a"]> Rules.name_x))],
       Returned (Some (envelope "Ok" 200), 200%Z)).
Proof.
  destruct (put_put_get Rules.admitInsert Rules.admitReplace
              Sample.applyUpdate "/a" Rules.name_w Rules.name_x
              [] [<["_id" := Int 1]> (<["path" := Str "/a"]> Rules.name_w)]
              [<["_id" := Int 1]> (<["path" := Str "/a"]> Rules.name_x)]
              [Invoked (FindOne "/a");
               Invoked (InsertOne (<["path" := Str "/a"]> Rules.name_w))]
              [Invoked (FindOne "/a");
               Invoked (ReplaceOne "/a"
                          (<["path" := Str "/a"]> Rules.name_x))]
              (Some (envelope "Ok" 200), 200%Z)
              (Some (envelope "Ok" 200), 200%Z)
              rules_keepsDocuments)
    as (d & Hget & _ & _ & Hput & _).
  - vm_compute. reflexivity.
  - vm_compute. reflexivity.
  - eexists. split; [|exact Hput]. vm_compute. reflexivity.
Defined.

(** C7 as the spec states it fails: when [bodyA] brings an [_id], the
    document GET returns after the two PUT has that field of [bodyA], and
    is not [bodyB] with the path. *)
Lemma put_put_get_keeps_id :
  exists db1 db2 d,
    fst (fst (run (store Rules.admitInsert Rules.admitReplace
                         Sample.applyUpdate)
                  (createOrOverwriteItem "/c" (Some Rules.with_id)) []))
      = db1 /\
    fst (fst (run (store Rules.admitInsert Rules.admitReplace
                         Sample.applyUpdate)
                  (createOrOverwriteItem "/c" (Some Rules.name_x)) db1))
      = db2 /\
    run (store Rules.admitInsert Rules.admitReplace Sample.applyUpdate)
        (getItem "/c") db2 =
      (db2, [Invoked (FindOne "/c")], Returned (Some d, 200%Z)) /\
    d !! "_id" = Rules.with_id !! "_id" /\
    d !! "_id" = Some (Str "k7") /\
    d <> <["path" := Str "/c"]> Rules.name_x.
Proof.
  do 2 eexists.
  exists (<["_id" := Str "k7"]> (<["path" := Str "/c"]> Rules.name_x)).
  split; [reflexivity|]. split; [reflexivity|].
  split; [vm_compute; reflexivity|]. split; [reflexivity|].
  split; [reflexivity|]. intros E.
  apply (f_equal (fun m : gmap string any => m !! "_id")) in E.
  vm_compute in E. discriminate E.
Qed.

(** C8 on the sample collection, on the path [/b], which has no document. *)
Lemma post_as_put_on_new_path_sample :
  run (exec Sample.applyUpdate)
      (createOrUpdateItem "/b" (Some Sample.body_b)) Sample.db_a =
  run (exec Sample.applyUpdate)
      (createOrOverwriteItem "/b" (Some Sample.body_b)) Sample.db_a.
Proof.
  apply (post_as_put_on_new_path Sample.json_Unmarshal Sample.applyUpdate
           "/b" Sample.body_b Sample.db_a).
  reflexivity.
Defined.

(** C9 for a POST request without body. *)
Lemma mainHandler_empty_body_panics_sample :
  mainHandler Sample.json_Unmarshal freshWriter
    (Sample.request "POST" EmptyString)
  = Panic "assignment to entry in nil map".
Proof.
  apply (mainHandler_empty_body_panics Sample.json_Unmarshal
           (Sample.request "POST" EmptyString)).
  - right. reflexivity.
  - reflexivity.
Defined.

(** C10 on the sample collection: the update document sent for a [$set]
    body posted on [/a]. *)
Lemma createOrUpdateItem_update_document_sample :
  exists db' out,
    run (exec Sample.applyUpdate)
        (createOrUpdateItem "/a" (Some Sample.set_n)) Sample.db_a =
      (db',
       [Invoked (FindOne "/a");
        Invoked (UpdateOne "/a" (<["path" := Str "/a"]> Sample.set_n))],
       out).
Proof.
  destruct (createOrUpdateItem_update_document Sample.applyUpdate "/a"
              Sample.set_n Sample.db_a)
    as (db' & out & update & Hrun & -> & _).
  - vm_compute. discriminate.
  - exists db', out. exact Hrun.
Defined.

(** ** The operations on any store *)

Section AnyStore.

Variable json_Unmarshal : string -> error + GoMap.
Variable S : Type.
Variable h : forall R, StoreCall R -> S -> S * R.

Lemma run_getItem_any (path : string) (s : S) :
  run h (getItem path) s =
  let '(s1, sr) := h _ (FindOne path) s in
  (s1, [Invoked (FindOne path)],
   match sr_Err sr with
   | Some ErrNoDocuments =>
       Returned (makeResponse "No item found" StatusNotFound)
   | Some err => Panicked (Error err)
   | None =>
       match sr_Decode sr with
       | inl err => Panicked (Error err)
       | inr i => Returned (Some i, StatusOK)
       end
   end).
Proof.
  unfold getItem, getSR, call. simpl.
  destruct (h _ (FindOne path) s) as [s1 [[[|msg]|] [e|i]]]; reflexivity.
Qed.

Lemma run_createOrOverwriteItem_any (path : string) (b : gmap string any)
    (s : S) :
  let data := <["path" := Str path]> b in
  run h (createOrOverwriteItem path (Some b)) s =
  let '(s1, sr) := h _ (FindOne path) s in
  match sr_Err sr with
  | Some ErrNoDocuments =>
      let '(s2, e) := h _ (InsertOne data) s1 in
      (s2, [Invoked (FindOne path); Invoked (InsertOne data)],
       match e with
       | Some err => Panicked (Error err)
       | None => Returned (makeResponse "Ok" StatusOK)
       end)
  | Some err => (s1, [Invoked (FindOne path)], Panicked (Error err))
  | None =>
      let '(s2, e) := h _ (ReplaceOne path data) s1 in
      (s2, [Invoked (FindOne path); Invoked (ReplaceOne path data)],
       match e with
       | Some err => Panicked (Error err)
       | None => Returned (makeResponse "Ok" StatusOK)
       end)
  end.
Proof.
  unfold createOrOverwriteItem, getSR, call. simpl.
  destruct (h _ (FindOne path) s) as [s1 [[[|msg]|] dec]]; simpl;
    try reflexivity.
  - destruct (h _ (InsertOne _) s1) as [s2 [e|]]; reflexivity.
  - destruct (h _ (ReplaceOne _ _) s1) as [s2 [e|]]; reflexivity.
Qed.

Lemma run_createOrUpdateItem_any (path : string) (b : gmap string any)
    (s : S) :
  let data := <["path" := Str path]> b in
  run h (createOrUpdateItem path (Some b)) s =
  let '(s1, sr) := h _ (FindOne path) s in
  match sr_Err sr with
  | Some ErrNoDocuments =>
      let '(s2, e) := h _ (InsertOne data) s1 in
      (s2, [Invoked (FindOne path); Invoked (InsertOne data)],
       match e with
       | Some err => Panicked (Error err)
       | None => Returned (makeResponse "Ok" StatusOK)
       end)
  | Some err => (s1, [Invoked (FindOne path)], Panicked (Error err))
  | None =>
      let '(s2, e) := h _ (UpdateOne path data) s1 in
      (s2, [Invoked (FindOne path); Invoked (UpdateOne path data)],
       match e with
       | Some err => Returned (makeResponse (Error err) StatusBadRequest)
       | None => Returned (makeResponse "Ok" StatusOK)
       end)
  end.
Proof.
  unfold createOrUpdateItem, getSR, call. simpl.
  destruct (h _ (FindOne path) s) as [s1 [[[|msg]|] dec]]; simpl;
    try reflexivity.
  - destruct (h _ (InsertOne _) s1) as [s2 [e|]]; reflexivity.
  - destruct (h _ (UpdateOne _ _) s1) as [s2 [e|]]; reflexivity.
Qed.

Lemma run_deleteItem_any (path : string) (s : S) :
  run h (deleteItem path) s =
  let '(s1, r) := h _ (DeleteOne path) s in
  (s1, [Invoked (DeleteOne path)],
   match r with
   | inl err => Panicked (Error err)
   | inr dr =>
       Returned (makeResponse
                   ("Deleted count: " ++ fmt_d (DeletedCount dr)) StatusOK)
   end).
Proof.
  unfold deleteItem, call. simpl.
  destruct (h _ (DeleteOne path) s) as [s1 [e|dr]]; reflexivity.
Qed.

(** Sending makes no call and, for a status the handler uses, does not
    panic. *)
Lemma run_respond (r : GoMap * Z) (s : S) :
  sendable (snd r) ->
  run h (respond freshWriter r) s = (s, [], Returned (sent r)).
Proof.
  intros Hc. unfold respond, rw_WriteHeader.
  destruct r as [m c]. simpl in *.
  destruct Hc as [-> | [-> | ->]]; reflexivity.
Qed.

Lemma run_respond_quiet (rw : ResponseWriter) (r : GoMap * Z) (s : S) :
  exists o, run h (respond rw r) s = (s, [], o).
Proof.
  unfold respond, rw_WriteHeader.
  destruct ((snd r <? 100)%Z || (999 <? snd r)%Z); eexists; reflexivity.
Qed.

(** [mainHandler] is [route] followed by [respond]. *)
Lemma run_mainHandler (rw : ResponseWriter) (req : Request) (s : S) :
  run h (mainHandler json_Unmarshal rw req) s =
  let '(s1, calls, o) := run h (route json_Unmarshal req) s in
  (s1, calls,
   match o with
   | Returned r => snd (run h (respond rw r) s1)
   | Panicked msg => Panicked msg
   end).
Proof.
  assert (Hop : forall op : Prog (GoMap * Z),
    run h (bind op (respond rw)) s =
    let '(s1, calls, o) := run h op s in
    (s1, calls,
     match o with
     | Returned r => snd (run h (respond rw r) s1)
     | Panicked msg => Panicked msg
     end)).
  { intros op. rewrite run_bind.
    destruct (run h op s) as [[s1 calls] [r|msg]]; [|reflexivity].
    destruct (run_respond_quiet rw r s1) as [o ->]. simpl.
    now rewrite app_nil_r. }
  unfold mainHandler, route, readBody.
  destruct (io_ReadAll (Body req)) as [e|bytes]; simpl; [reflexivity|].
  destruct (negb (String.length bytes =? 0)%nat); simpl.
  - destruct (jsonToMap json_Unmarshal bytes) as [m [e|]]; simpl.
    + exact (Hop (Ret (makeResponse "Error reading JSON body"
                                    StatusBadRequest))).
    + apply Hop.
  - apply Hop.
Qed.


(** What each operation can return, on any store. *)
Lemma getItem_result (path : string) (s s' : S) (calls : list Invocation)
    (r : GoMap * Z) :
  run h (getItem path) s = (s', calls, Returned r) ->
  calls = [Invoked (FindOne path)] /\
  (r = makeResponse "No item found" StatusNotFound \/
   exists d, r = (Some d, StatusOK)).
Proof.
  rewrite run_getItem_any.
  destruct (h _ (FindOne path) s) as [s1 [[[|msg]|] [e|i]]]; simpl;
    intros [= <- <- <-]; split; eauto.
Qed.

Lemma createOrOverwriteItem_result (path : string) (data : GoMap)
    (s s' : S) (calls : list Invocation) (r : GoMap * Z) :
  run h (createOrOverwriteItem path data) s = (s', calls, Returned r) ->
  r = makeResponse "Ok" StatusOK.
Proof.
  destruct data as [b|]; [|discriminate].
  rewrite run_createOrOverwriteItem_any.
  destruct (h _ (FindOne path) s) as [s1 [[[|msg]|] dec]]; simpl;
    try discriminate.
  - destruct (h _ (InsertOne _) s1) as [s2 [e|]]; now intros [= <- <- <-].
  - destruct (h _ (ReplaceOne _ _) s1) as [s2 [e|]]; now intros [= <- <- <-].
Qed.

Lemma createOrUpdateItem_result (path : string) (data : GoMap)
    (s s' : S) (calls : list Invocation) (r : GoMap * Z) :
  run h (createOrUpdateItem path data) s = (s', calls, Returned r) ->
  r = makeResponse "Ok" StatusOK \/
  exists msg, r = makeResponse msg StatusBadRequest.
Proof.
  destruct data as [b|]; [|discriminate].
  rewrite run_createOrUpdateItem_any.
  destruct (h _ (FindOne path) s) as [s1 [[[|msg]|] dec]]; simpl;
    try discriminate.
  - destruct (h _ (InsertOne _) s1) as [s2 [e|]]; intros [= <- <- <-].
    now left.
  - destruct (h _ (UpdateOne _ _) s1) as [s2 [e|]]; intros [= <- <- <-];
      eauto.
Qed.

Lemma deleteItem_result (path : string) (s s' : S)
    (calls : list Invocation) (r : GoMap * Z) :
  run h (deleteItem path) s = (s', calls, Returned r) ->
  calls = [Invoked (DeleteOne path)] /\
  exists msg, r = makeResponse msg StatusOK.
Proof.
  rewrite run_deleteItem_any.
  destruct (h _ (DeleteOne path) s) as [s1 [e|dr]]; intros [= <- <- <-].
  split; eauto.
Qed.

(** The calls of each operation are about its path, at most two. *)
Lemma getItem_calls (path : string) (s : S) :
  snd (fst (run h (getItem path) s)) = [Invoked (FindOne path)].
Proof.
  rewrite run_getItem_any. now destruct (h _ (FindOne path) s).
Qed.

Lemma deleteItem_calls (path : string) (s : S) :
  snd (fst (run h (deleteItem path) s)) = [Invoked (DeleteOne path)].
Proof.
  rewrite run_deleteItem_any. now destruct (h _ (DeleteOne path) s).
Qed.

Lemma createOrOverwriteItem_calls (path : string) (data : GoMap) (s : S) :
  let calls := snd (fst (run h (createOrOverwriteItem path data) s)) in
  (length calls <= 2)%nat /\ forallb (concerns path) calls = true.
Proof.
  destruct data as [b|]; [|simpl; split; [lia|reflexivity]].
  rewrite run_createOrOverwriteItem_any.
  pose proof (selects_keyed path b) as Hsel.
  destruct (h _ (FindOne path) s) as [s1 [[[|msg]|] dec]]; simpl.
  - destruct (h _ (InsertOne _) s1) as [s2 e]; simpl.
    rewrite String.eqb_refl, Hsel. split; [lia|reflexivity].
  - rewrite String.eqb_refl. split; [lia|reflexivity].
  - destruct (h _ (ReplaceOne _ _) s1) as [s2 e]; simpl.
    rewrite String.eqb_refl, Hsel. split; [lia|reflexivity].
Qed.

Lemma createOrUpdateItem_calls (path : string) (data : GoMap) (s : S) :
  let calls := snd (fst (run h (createOrUpdateItem path data) s)) in
  (length calls <= 2)%nat /\ forallb (concerns path) calls = true.
Proof.
  destruct data as [b|]; [|simpl; split; [lia|reflexivity]].
  rewrite run_createOrUpdateItem_any.
  pose proof (selects_keyed path b) as Hsel.
  destruct (h _ (FindOne path) s) as [s1 [[[|msg]|] dec]]; simpl.
  - destruct (h _ (InsertOne _) s1) as [s2 e]; simpl.
    rewrite String.eqb_refl, Hsel. split; [lia|reflexivity].
  - rewrite String.eqb_refl. split; [lia|reflexivity].
  - destruct (h _ (UpdateOne _ _) s1) as [s2 e]; simpl.
    rewrite String.eqb_refl, Hsel. split; [lia|reflexivity].
Qed.

(** The calls of [route], whatever the request and the store. *)
Lemma route_calls (req : Request) (s : S) :
  let calls := snd (fst (run h (route json_Unmarshal req) s)) in
  (length calls <= 2)%nat /\
  forallb (concerns (RequestURI req)) calls = true.
Proof.
  assert (Hget : forall p s0,
    let calls := snd (fst (run h (getItem p) s0)) in
    (length calls <= 2)%nat /\ forallb (concerns p) calls = true).
  { intros p s0. rewrite getItem_calls. simpl. rewrite String.eqb_refl.
    split; [lia|reflexivity]. }
  assert (Hdel : forall p s0,
    let calls := snd (fst (run h (deleteItem p) s0)) in
    (length calls <= 2)%nat /\ forallb (concerns p) calls = true).
  { intros p s0. rewrite deleteItem_calls. simpl. rewrite String.eqb_refl.
    split; [lia|reflexivity]. }
  assert (Hnone : forall r : GoMap * Z,
    let calls := snd (fst (run h (Ret r) s)) in
    (length calls <= 2)%nat /\
    forallb (concerns (RequestURI req)) calls = true).
  { intros r. simpl. split; [lia|reflexivity]. }
  unfold route, readBody.
  destruct (io_ReadAll (Body req)) as [e|bytes]; simpl;
    [split; [lia|reflexivity]|].
  destruct (negb (String.length bytes =? 0)%nat); simpl.
  - destruct (jsonToMap json_Unmarshal bytes) as [m [e|]]; simpl;
      [split; [lia|reflexivity]|].
    destruct (String.eqb (Method req) MethodGet); [apply Hget|].
    destruct (String.eqb (Method req) MethodPost);
      [apply createOrUpdateItem_calls|].
    destruct (String.eqb (Method req) MethodPut);
      [apply createOrOverwriteItem_calls|].
    destruct (String.eqb (Method req) MethodDelete); [apply Hdel|].
    apply Hnone.
  - destruct (String.eqb (Method req) MethodGet); [apply Hget|].
    destruct (String.eqb (Method req) MethodPost);
      [apply createOrUpdateItem_calls|].
    destruct (String.eqb (Method req) MethodPut);
      [apply createOrOverwriteItem_calls|].
    destruct (String.eqb (Method req) MethodDelete); [apply Hdel|].
    apply Hnone.
Qed.

(** What [route] can return, whatever the request and the store. *)
Lemma route_result (req : Request) (s s' : S) (calls : list Invocation)
    (r : GoMap * Z) :
  run h (route json_Unmarshal req) s = (s', calls, Returned r) ->
  sendable (snd r) /\
  ((exists msg, r = makeResponse msg (snd r)) \/
   (Method req = MethodGet /\ exists d, r = (Some d, StatusOK))).
Proof.
  assert (Henv : forall msg c, sendable c ->
    sendable (snd (makeResponse msg c)) /\
    ((exists msg', makeResponse msg c
                   = makeResponse msg' (snd (makeResponse msg c))) \/
     (Method req = MethodGet /\
      exists d, makeResponse msg c = (Some d, StatusOK)))).
  { intros msg c Hc. split; [exact Hc|]. left. now exists msg. }
  assert (Hok : sendable StatusOK) by now left.
  assert (Hbad : sendable StatusBadRequest) by (right; now left).
  assert (Hnf : sendable StatusNotFound) by (right; now right).
  assert (Hops : run h
      (if String.eqb (Method req) MethodGet then getItem (RequestURI req)
       else if String.eqb (Method req) MethodPost
            then createOrUpdateItem (RequestURI req) None
       else if String.eqb (Method req) MethodPut
            then createOrOverwriteItem (RequestURI req) None
       else if String.eqb (Method req) MethodDelete
            then deleteItem (RequestURI req)
       else Ret (makeResponse "Unsupported method" StatusBadRequest)) s
      = (s', calls, Returned r) \/
    (exists m, run h
      (if String.eqb (Method req) MethodGet then getItem (RequestURI req)
       else if String.eqb (Method req) MethodPost
            then createOrUpdateItem (RequestURI req) m
       else if String.eqb (Method req) MethodPut
            then createOrOverwriteItem (RequestURI req) m
       else if String.eqb (Method req) MethodDelete
            then deleteItem (RequestURI req)
       else Ret (makeResponse "Unsupported method" StatusBadRequest)) s
      = (s', calls, Returned r)) ->
    sendable (snd r) /\
    ((exists msg, r = makeResponse msg (snd r)) \/
     (Method req = MethodGet /\ exists d, r = (Some d, StatusOK)))).
  { intros Hrun.
    assert (Hm : exists m, run h
      (if String.eqb (Method req) MethodGet then getItem (RequestURI req)
       else if String.eqb (Method req) MethodPost
            then createOrUpdateItem (RequestURI req) m
       else if String.eqb (Method req) MethodPut
            then createOrOverwriteItem (RequestURI req) m
       else if String.eqb (Method req) MethodDelete
            then deleteItem (RequestURI req)
       else Ret (makeResponse "Unsupported method" StatusBadRequest)) s
      = (s', calls, Returned r)).
    { destruct Hrun as [Hrun|Hrun]; [now exists None|exact Hrun]. }
    clear Hrun. destruct Hm as [m Hrun].
    destruct (String.eqb (Method req) MethodGet) eqn:Hg.
    { apply String.eqb_eq in Hg.
      apply getItem_result in Hrun as [_ [-> | [d ->]]].
      - now apply Henv.
      - split; [exact Hok|]. right. split; [exact Hg|]. now exists d. }
    destruct (String.eqb (Method req) MethodPost).
    { apply createOrUpdateItem_result in Hrun as [-> | [msg ->]];
        now apply Henv. }
    destruct (String.eqb (Method req) MethodPut).
    { apply createOrOverwriteItem_result in Hrun as ->. now apply Henv. }
    destruct (String.eqb (Method req) MethodDelete).
    { apply deleteItem_result in Hrun as [_ [msg ->]]. now apply Henv. }
    injection Hrun as <- <- <-. now apply Henv. }
  unfold route, readBody.
  destruct (io_ReadAll (Body req)) as [e|bytes]; simpl; [discriminate|].
  destruct (negb (String.length bytes =? 0)%nat); simpl.
  - destruct (jsonToMap json_Unmarshal bytes) as [m [e|]]; simpl.
    + intros [= <- <- <-]. now apply Henv.
    + intros Hrun. apply Hops. right. now exists m.
  - intros Hrun. apply Hops. now left.
Qed.

(** X1. A response from the handler, on any store: the header
    [Content-Type: application/json], one JSON text, and a status that is
    200, 400 or 404.  The text is an envelope whose [status] is the
    status sent, or, for GET only, a document with status 200. *)
Theorem mainHandler_response_shape (req : Request) (s s' : S)
    (calls : list Invocation) (w : ResponseWriter) :
  run h (mainHandler json_Unmarshal freshWriter req) s
    = (s', calls, Returned w) ->
  exists r : GoMap * Z,
    w = sent r /\ sendable (snd r) /\
    ((exists (msg : string) (m : gmap string any),
        r = (Some m, snd r) /\
        m !! "message" = Some (Str msg) /\
        m !! "status" = Some (Int (snd r))) \/
     (Method req = MethodGet /\ exists d, r = (Some d, StatusOK))).
Proof.
  rewrite run_mainHandler.
  destruct (run h (route json_Unmarshal req) s) as [[s1 calls1] [r|msg]]
    eqn:Hroute; [|discriminate].
  apply route_result in Hroute as [Hc Hshape].
  rewrite (run_respond r s1 Hc). simpl. intros [= <- <- <-].
  exists r. split; [reflexivity|]. split; [exact Hc|].
  destruct Hshape as [[msg Hr] | Hget]; [left|now right].
  exists msg. rewrite Hr. simpl. eexists. split; [reflexivity|].
  split; [|apply lookup_insert_eq].
  rewrite lookup_insert_ne by discriminate. apply lookup_insert_eq.
Qed.

(** X2. Whatever the request and the store, the handler makes at most
    two calls to the collection, and each of them is about the request
    URI: its filter is that path, and the document it carries, if any,
    has that path. *)
Theorem mainHandler_calls_own_path (rw : ResponseWriter) (req : Request)
    (s : S) :
  let calls := snd (fst (run h (mainHandler json_Unmarshal rw req) s)) in
  (length calls <= 2)%nat /\
  forallb (concerns (RequestURI req)) calls = true.
Proof.
  rewrite run_mainHandler. pose proof (route_calls req s) as Hr.
  destruct (run h (route json_Unmarshal req) s) as [[s1 calls1] o].
  exact Hr.
Qed.

(** X3. With a body that is empty or decodes without error, a GET
    request makes the one call [FindOne] and a DELETE request the one
    call [DeleteOne], on any store: a read never writes, and a delete is
    not preceded by a lookup. *)
Theorem get_and_delete_call_once (rw : ResponseWriter) (req : Request)
    (bytes : string) (s : S) :
  Body req = Delivers bytes ->
  (bytes = EmptyString \/ exists m, json_Unmarshal bytes = inr m) ->
  (Method req = MethodGet ->
   snd (fst (run h (mainHandler json_Unmarshal rw req) s))
     = [Invoked (FindOne (RequestURI req))]) /\
  (Method req = MethodDelete ->
   snd (fst (run h (mainHandler json_Unmarshal rw req) s))
     = [Invoked (DeleteOne (RequestURI req))]).
Proof.
  intros Hbody Hok.
  assert (Hread : readBody json_Unmarshal req = Ret (None, None) \/
                  exists m, readBody json_Unmarshal req = Ret (m, None)).
  { unfold readBody, jsonToMap. rewrite Hbody. simpl.
    destruct Hok as [-> | [m Hm]]; [now left|].
    destruct bytes; simpl; [now left|]. rewrite Hm. right. now exists m. }
  assert (Hm : exists m, readBody json_Unmarshal req = Ret (m, None)).
  { destruct Hread as [H|H]; [now exists None|exact H]. }
  destruct Hm as [m Hm].
  split; intros Hmeth; rewrite run_mainHandler; unfold route;
    rewrite Hm, Hmeth; cbn -[getItem deleteItem run].
  - pose proof (getItem_calls (RequestURI req) s) as Hc.
    destruct (run h (getItem (RequestURI req)) s) as [[s1 calls1] o].
    exact Hc.
  - pose proof (deleteItem_calls (RequestURI req) s) as Hc.
    destruct (run h (deleteItem (RequestURI req)) s) as [[s1 calls1] o].
    exact Hc.
Qed.

(** X4. When the lookup fails with an error other than "no documents",
    GET, PUT and POST all panic with the text of the error after that
    one call: nothing is written to the store. *)
Theorem lookup_error_aborts (path msg : string) (b : gmap string any)
    (s s1 : S) (sr : SingleResult) :
  h _ (FindOne path) s = (s1, sr) ->
  sr_Err sr = Some (errorString msg) ->
  run h (getItem path) s = (s1, [Invoked (FindOne path)], Panicked msg) /\
  run h (createOrOverwriteItem path (Some b)) s
    = (s1, [Invoked (FindOne path)], Panicked msg) /\
  run h (createOrUpdateItem path (Some b)) s
    = (s1, [Invoked (FindOne path)], Panicked msg).
Proof.
  intros Hh He.
  rewrite run_getItem_any, run_createOrOverwriteItem_any,
    run_createOrUpdateItem_any, Hh, He.
  repeat split.
Qed.

(** X5. PUT on any store: when the write it makes, [InsertOne] after a
    lookup that found nothing or [ReplaceOne] after one that found a
    document, fails with [err], the operation panics with the text of
    [err]; no envelope is returned. *)
Theorem createOrOverwriteItem_write_error_panics (path : string)
    (b : gmap string any) (s s1 s2 : S) (sr : SingleResult) (err : error) :
  h _ (FindOne path) s = (s1, sr) ->
  (sr_Err sr = Some ErrNoDocuments /\
   h _ (InsertOne (<["path" := Str path]> b)) s1 = (s2, Some err)) \/
  (sr_Err sr = None /\
   h _ (ReplaceOne path (<["path" := Str path]> b)) s1 = (s2, Some err)) ->
  exists write,
    run h (createOrOverwriteItem path (Some b)) s
      = (s2, [Invoked (FindOne path); write], Panicked (Error err)) /\
    writes write = true.
Proof.
  intros Hh [[He Hw] | [He Hw]];
    rewrite run_createOrOverwriteItem_any, Hh, He, Hw;
    eexists; split; reflexivity.
Qed.

(** X6. POST on any store treats its two writes differently: a failing
    [InsertOne] panics with the text of the error, a failing [UpdateOne]
    returns the envelope whose message is that text and whose status is
    400, with status 400. *)
Theorem createOrUpdateItem_write_errors (path : string)
    (b : gmap string any) (s s1 s2 : S) (sr : SingleResult) (err : error) :
  h _ (FindOne path) s = (s1, sr) ->
  (sr_Err sr = Some ErrNoDocuments ->
   h _ (InsertOne (<["path" := Str path]> b)) s1 = (s2, Some err) ->
   run h (createOrUpdateItem path (Some b)) s =
     (s2, [Invoked (FindOne path);
           Invoked (InsertOne (<["path" := Str path]> b))],
      Panicked (Error err))) /\
  (sr_Err sr = None ->
   h _ (UpdateOne path (<["path" := Str path]> b)) s1 = (s2, Some err) ->
   run h (createOrUpdateItem path (Some b)) s =
     (s2, [Invoked (FindOne path);
           Invoked (UpdateOne path (<["path" := Str path]> b))],
      Returned (Some (envelope (Error err) 400), 400%Z))).
Proof.
  intros Hh. split; intros He Hw;
    rewrite run_createOrUpdateItem_any, Hh, He, Hw; reflexivity.
Qed.

(** X7. A body stream that breaks makes the handler panic with the text
    of the read error, whatever the method, also for GET and DELETE,
    which do not use the body; no call is made and nothing is sent. *)
Theorem mainHandler_broken_body_panics (rw : ResponseWriter)
    (req : Request) (msg : string) :
  Body req = Breaks msg ->
  mainHandler json_Unmarshal rw req = Panic msg /\
  forall s, run h (mainHandler json_Unmarshal rw req) s
            = (s, [], Panicked msg).
Proof.
  intros Hbody.
  assert (H : mainHandler json_Unmarshal rw req = Panic msg).
  { unfold mainHandler, readBody. rewrite Hbody. reflexivity. }
  split; [exact H|]. intros s. rewrite H. reflexivity.
Qed.

(** X8. A PUT or POST request whose body decodes to the nil map, as the
    JSON text [null] does, panics on the assignment to [data["path"]]
    like a request without body: no call is made and nothing is sent. *)
Theorem mainHandler_null_body_panics (rw : ResponseWriter) (req : Request)
    (bytes : string) :
  Method req = MethodPut \/ Method req = MethodPost ->
  Body req = Delivers bytes ->
  json_Unmarshal bytes = inr None ->
  mainHandler json_Unmarshal rw req = Panic "assignment to entry in nil map"
  /\
  forall s, run h (mainHandler json_Unmarshal rw req) s
            = (s, [], Panicked "assignment to entry in nil map").
Proof.
  intros Hm Hbody Hnull.
  assert (H : mainHandler json_Unmarshal rw req
              = Panic "assignment to entry in nil map").
  { unfold mainHandler, readBody, jsonToMap. rewrite Hbody. simpl.
    destruct bytes; simpl; [|rewrite Hnull; simpl];
      destruct Hm as [-> | ->]; reflexivity. }
  split; [exact H|]. intros s. rewrite H. reflexivity.
Qed.

(** X9. GET and DELETE do not look at the body once it has decoded: the
    handler does the same with any body that decodes without error as
    with no body. *)
Theorem get_and_delete_ignore_body (rw : ResponseWriter) (req : Request)
    (bytes : string) (m : GoMap) :
  Method req = MethodGet \/ Method req = MethodDelete ->
  Body req = Delivers bytes ->
  json_Unmarshal bytes = inr m ->
  mainHandler json_Unmarshal rw req =
  mainHandler json_Unmarshal rw
    {| Method := Method req; RequestURI := RequestURI req;
       Body := Delivers EmptyString |}.
Proof.
  intros Hm Hbody Hdec.
  unfold mainHandler, readBody, jsonToMap. rewrite Hbody. simpl.
  destruct bytes; simpl; [reflexivity|]. rewrite Hdec. simpl.
  destruct Hm as [-> | ->]; reflexivity.
Qed.


End AnyStore.

(** ** More on the in-memory collection *)

Section InMemory.

Variable json_Unmarshal : string -> error + GoMap.
Variable applyUpdate : gmap string any -> gmap string any ->
                       string + gmap string any.

(** Every document stays keyed through a request, as long as accepted
    updates keep paths. *)
Lemma allKeyed_mainHandler (rw : ResponseWriter) (req : Request)
    (db : list (gmap string any)) :
  keepsPath applyUpdate -> allKeyed db ->
  allKeyed (fst (fst (run (exec applyUpdate)
                          (mainHandler json_Unmarshal rw req) db))).
Proof.
  intros Hkeep Hall.
  assert (Hdata : forall p (b : gmap string any),
             exists q, (<["path" := Str p]> b) !! "path" = Some (Str q)).
  { intros p b. exists p. apply lookup_insert_eq. }
  destruct (mainHandler_collection json_Unmarshal applyUpdate rw req db)
    as [-> | [[b ->] | [[b ->] | ->]]].
  - exact Hall.
  - rewrite run_createOrUpdateItem.
    destruct (List.find (selects (RequestURI req)) db) as [d|] eqn:Hf;
      simpl.
    + destruct (applyUpdate _ d) as [msg|d'] eqn:Hu; simpl; [exact Hall|].
      apply List.find_some in Hf as [_ Hd].
      pose proof (Hkeep _ _ _ _ Hd Hu) as Hd'. apply selects_spec in Hd'.
      intros x Hx. apply In_replaceFirst in Hx as [-> | Hx]; eauto.
    + intros x Hx. apply in_app_or in Hx as [Hx | [<- | []]]; eauto.
  - rewrite run_createOrOverwriteItem.
    destruct (List.find (selects (RequestURI req)) db) as [d|]; simpl.
    + intros x Hx. apply In_replaceFirst in Hx as [-> | Hx]; eauto.
    + intros x Hx. apply in_app_or in Hx as [Hx | [<- | []]]; eauto.
  - rewrite run_deleteItem. simpl. intros x Hx.
    apply In_deleteFirst in Hx. eauto.
Qed.


(** X11. When at most one document has the path, a second DELETE finds
    nothing: it answers with the envelope whose message is "Deleted
    count: 0" and whose status is 200, with status 200, and leaves the
    collection as the first one left it. *)
Theorem delete_twice (p : string) (db : list (gmap string any)) :
  (length (docsAt p db) <= 1)%nat ->
  let db1 := fst (fst (run (exec applyUpdate) (deleteItem p) db)) in
  run (exec applyUpdate) (deleteItem p) db1 =
  (db1, [Invoked (DeleteOne p)],
   Returned (Some (envelope "Deleted count: 0" 200), 200%Z)).
Proof.
  intros Hle db1. subst db1. rewrite !run_deleteItem. simpl.
  assert (Hnone : docsAt p (fst (deleteFirst p db)) = []).
  { rewrite docsAt_deleteFirst.
    destruct (docsAt p db) as [|d [|d2 rest]]; simpl in *;
      [reflexivity|reflexivity|lia]. }
  rewrite (deleteFirst_none p _ Hnone). reflexivity.
Qed.

(** X12. A request leaves the documents of every path other than its URI
    as they were, so that GET on another path gives the same result
    before and after it; accepted updates are supposed to keep paths. *)
Theorem request_leaves_other_paths (rw : ResponseWriter) (req : Request)
    (q : string) (db : list (gmap string any)) :
  keepsPath applyUpdate ->
  q <> RequestURI req ->
  let db' :=
    fst (fst (run (exec applyUpdate) (mainHandler json_Unmarshal rw req) db))
  in
  docsAt q db' = docsAt q db /\
  snd (run (exec applyUpdate) (getItem q) db')
    = snd (run (exec applyUpdate) (getItem q) db).
Proof.
  intros Hkeep Hne db'.
  assert (Hdocs : docsAt q db' = docsAt q db).
  { subst db'.
    destruct (mainHandler_collection json_Unmarshal applyUpdate rw req db)
      as [-> | [[b ->] | [[b ->] | ->]]].
    - reflexivity.
    - rewrite run_createOrUpdateItem.
      pose proof (selects_keyed (RequestURI req) b) as Hsel.
      destruct (List.find (selects (RequestURI req)) db) as [d|] eqn:Hf;
        simpl.
      + destruct (applyUpdate _ d) as [msg|d'] eqn:Hu; simpl;
          [reflexivity|].
        apply List.find_some in Hf as [_ Hd].
        apply docsAt_replaceFirst_other; [|exact Hne].
        exact (Hkeep _ _ _ _ Hd Hu).
      + rewrite docsAt_app. simpl.
        rewrite (selects_one_path _ q _ Hsel Hne). apply app_nil_r.
    - rewrite run_createOrOverwriteItem.
      pose proof (selects_keyed (RequestURI req) b) as Hsel.
      destruct (List.find (selects (RequestURI req)) db) as [d|]; simpl.
      + now apply docsAt_replaceFirst_other.
      + rewrite docsAt_app. simpl.
        rewrite (selects_one_path _ q _ Hsel Hne). apply app_nil_r.
    - rewrite run_deleteItem. simpl. now apply docsAt_deleteFirst_other. }
  split; [exact Hdocs|].
  rewrite !run_getItem, !find_docsAt, Hdocs. reflexivity.
Qed.


(** X16. Served one after the other, requests keep the collection well
    formed: if no two documents share a path and every document has a
    string for [path] before, the same holds after, whatever the
    requests; accepted updates are supposed to keep paths. *)
Theorem session_keeps_collection_keyed (reqs : list Request)
    (db : list (gmap string any)) :
  keepsPath applyUpdate ->
  wellKeyed db -> allKeyed db ->
  wellKeyed (snd (session json_Unmarshal applyUpdate reqs db)) /\
  allKeyed (snd (session json_Unmarshal applyUpdate reqs db)).
Proof.
  intros Hkeep Hwk Hall.
  split; [now apply wellKeyed_session|].
  clear Hwk. revert db Hall.
  induction reqs as [|req rest IH]; intros db Hall; simpl; [exact Hall|].
  pose proof (allKeyed_mainHandler freshWriter req db Hkeep Hall) as Hdb.
  destruct (run (exec applyUpdate)
              (mainHandler json_Unmarshal freshWriter req) db)
    as [[db1 calls] o]. simpl in Hdb.
  specialize (IH db1 Hdb).
  destruct (session json_Unmarshal applyUpdate rest db1) as [os db2].
  exact IH.
Qed.

End InMemory.

(** ** The configuration *)

Section Configuration.

Variable os_Getenv : string -> string.

(** [getEnv] gives the value of the variable when that is not empty and
    the fallback otherwise, so that an empty value cannot be told from a
    missing one; with a fallback that is not empty the result is never
    empty. *)
Lemma getEnv_value (envVar fallback : string) :
  (os_Getenv envVar <> EmptyString ->
   getEnv os_Getenv envVar fallback = os_Getenv envVar) /\
  (os_Getenv envVar = EmptyString ->
   getEnv os_Getenv envVar fallback = fallback) /\
  (fallback <> EmptyString ->
   getEnv os_Getenv envVar fallback <> EmptyString).
Proof.
  unfold getEnv.
  destruct (String.eqb (os_Getenv envVar) EmptyString) eqn:He; simpl.
  - apply String.eqb_eq in He. repeat split; congruence.
  - apply String.eqb_neq in He. repeat split; congruence.
Qed.

(** X18. Whatever the process environment, each field of the
    configuration is the value of its variable when that is not empty
    and its built-in default otherwise; none is empty; and the address
    the server listens on is the host, a colon and the port. *)
Theorem env_from_environment :
  let pick (name fallback : string) :=
    if String.eqb (os_Getenv name) EmptyString then fallback
    else os_Getenv name in
  env os_Getenv =
    {| dbURI := pick "DB_URI" "mongodb://127.0.0.1:27017";
       dbName := pick "DB_NAME" "simple_crud";
       dbCollection := pick "DB_COLLECTION" "simple_crud";
       dbUsername := pick "DB_USERNAME" "admin";
       dbPassword := pick "DB_PASSWORD" "admin";
       serverHost := pick "SERVER_HOST" "0.0.0.0";
       serverPort := pick "SERVER_PORT" "8080" |} /\
  listenAddr os_Getenv =
    pick "SERVER_HOST" "0.0.0.0" ++ ":" ++ pick "SERVER_PORT" "8080" /\
  dbURI (env os_Getenv) <> EmptyString /\
  dbName (env os_Getenv) <> EmptyString /\
  dbCollection (env os_Getenv) <> EmptyString /\
  dbUsername (env os_Getenv) <> EmptyString /\
  dbPassword (env os_Getenv) <> EmptyString /\
  serverHost (env os_Getenv) <> EmptyString /\
  serverPort (env os_Getenv) <> EmptyString.
Proof.
  intros pick.
  assert (Hpick : forall v d, getEnv os_Getenv v d = pick v d).
  { intros v d. unfold getEnv, pick.
    destruct (String.eqb (os_Getenv v) EmptyString); reflexivity. }
  assert (H : forall v d, d <> EmptyString ->
                          getEnv os_Getenv v d <> EmptyString).
  { intros v d. apply getEnv_value. }
  split; [|split].
  - unfold env. now rewrite !Hpick.
  - unfold listenAddr, env. cbn [serverHost serverPort].
    now rewrite !Hpick.
  - repeat split; apply H; discriminate.
Qed.

End Configuration.

(** ** The further properties on sample inputs *)


Lemma mergeFields_keepsPath : keepsPath mergeFields.
Proof.
  intros path u d d' _ [= <-]. apply selects_spec.
  apply lookup_union_Some_l, lookup_insert_eq.
Qed.

(** X1 for GET on the stored path of the sample collection. *)
Lemma mainHandler_response_shape_sample :
  exists r : GoMap * Z,
    sent (Some Sample.doc_a, 200%Z) = sent r /\ sendable (snd r) /\
    ((exists (msg : string) (m : gmap string any),
        r = (Some m, snd r) /\
        m !! "message" = Some (Str msg) /\
        m !! "status" = Some (Int (snd r))) \/
     (Method (Sample.request "GET" EmptyString) = MethodGet /\
      exists d, r = (Some d, StatusOK))).
Proof.
  apply (mainHandler_response_shape Sample.json_Unmarshal _
           (exec Sample.applyUpdate) (Sample.request "GET" EmptyString)
           Sample.db_a Sample.db_a [Invoked (FindOne "/a")]).
  reflexivity.
Defined.

(** X3 on a store that is out of reach. *)
Lemma get_and_delete_call_once_sample :
  snd (fst (run (unreachable "no reachable servers")
                (mainHandler Sample.json_Unmarshal freshWriter
                   (Sample.request "DELETE" "{}")) tt))
  = [Invoked (DeleteOne "/a")].
Proof.
  apply (get_and_delete_call_once Sample.json_Unmarshal _
           (unreachable "no reachable servers") freshWriter
           (Sample.request "DELETE" "{}") "{}" tt).
  - reflexivity.
  - right. exists (Some ∅). reflexivity.
  - reflexivity.
Defined.

(** X4 on a store that is out of reach. *)
Lemma lookup_error_aborts_sample :
  run (unreachable "no reachable servers")
      (createOrOverwriteItem "/a" (Some Sample.body_b)) tt
  = (tt, [Invoked (FindOne "/a")], Panicked "no reachable servers").
Proof.
  apply (lookup_error_aborts _ (unreachable "no reachable servers")
           "/a" "no reachable servers" Sample.body_b tt tt
           {| sr_Err := Some (errorString "no reachable servers");
              sr_Decode := inl (errorString "no reachable servers") |}).
  - reflexivity.
  - reflexivity.
Defined.

(** X5 on the sample collection, frozen: the replace is refused. *)
Lemma createOrOverwriteItem_write_error_panics_sample :
  exists write,
    run (frozen "not primary")
        (createOrOverwriteItem "/a" (Some Sample.body_b)) Sample.db_a
      = (Sample.db_a, [Invoked (FindOne "/a"); write],
         Panicked "not primary") /\
    writes write = true.
Proof.
  apply (createOrOverwriteItem_write_error_panics _ (frozen "not primary")
           "/a" Sample.body_b Sample.db_a Sample.db_a Sample.db_a
           {| sr_Err := None; sr_Decode := inr Sample.doc_a |}
           (errorString "not primary")).
  - reflexivity.
  - right. split; reflexivity.
Defined.

(** X6 on the sample collection, frozen: the insert on [/b] panics, the
    update on [/a] is answered with 400. *)
Lemma createOrUpdateItem_write_errors_sample :
  run (frozen "not primary")
      (createOrUpdateItem "/b" (Some Sample.body_b)) Sample.db_a
    = (Sample.db_a,
       [Invoked (FindOne "/b");
        Invoked (InsertOne (<["path" := Str "/b"]> Sample.body_b))],
       Panicked "not primary") /\
  run (frozen "not primary")
      (createOrUpdateItem "/a" (Some Sample.body_b)) Sample.db_a
    = (Sample.db_a,
       [Invoked (FindOne "/a");
        Invoked (UpdateOne "/a" (<["path" := Str "/a"]> Sample.body_b))],
       Returned (Some (envelope "not primary" 400), 400%Z)).
Proof.
  split.
  - apply (createOrUpdateItem_write_errors _ (frozen "not primary")
             "/b" Sample.body_b Sample.db_a Sample.db_a Sample.db_a
             {| sr_Err := Some ErrNoDocuments;
                sr_Decode := inl ErrNoDocuments |}
             (errorString "not primary")); reflexivity.
  - apply (createOrUpdateItem_write_errors _ (frozen "not primary")
             "/a" Sample.body_b Sample.db_a Sample.db_a Sample.db_a
             {| sr_Err := None; sr_Decode := inr Sample.doc_a |}
             (errorString "not primary")); reflexivity.
Defined.

(** X7 for a GET request whose body stream breaks. *)
Lemma mainHandler_broken_body_panics_sample :
  mainHandler Sample.json_Unmarshal freshWriter
    {| Method := "GET"; RequestURI := "/a"; Body := Breaks "unexpected EOF" |}
  = Panic "unexpected EOF".
Proof.
  apply (mainHandler_broken_body_panics Sample.json_Unmarshal unit
           (unreachable "no reachable servers") freshWriter
           {| Method := "GET"; RequestURI := "/a";
              Body := Breaks "unexpected EOF" |} "unexpected EOF").
  reflexivity.
Defined.

(** X8 for a PUT request with the body [null]. *)
Lemma mainHandler_null_body_panics_sample :
  mainHandler Sample.json_Unmarshal freshWriter (Sample.request "PUT" "null")
  = Panic "assignment to entry in nil map".
Proof.
  apply (mainHandler_null_body_panics Sample.json_Unmarshal unit
           (unreachable "no reachable servers") freshWriter
           (Sample.request "PUT" "null") "null").
  - left. reflexivity.
  - reflexivity.
  - reflexivity.
Defined.

(** X9 for a GET request that carries an object. *)
Lemma get_and_delete_ignore_body_sample :
  mainHandler Sample.json_Unmarshal freshWriter
    (Sample.request "GET" Sample.json_name_x) =
  mainHandler Sample.json_Unmarshal freshWriter
    (Sample.request "GET" EmptyString).
Proof.
  apply (get_and_delete_ignore_body Sample.json_Unmarshal freshWriter
           (Sample.request "GET" Sample.json_name_x) Sample.json_name_x
           (Some {["name" := Str "x"]})).
  - left. reflexivity.
  - reflexivity.
  - vm_compute. reflexivity.
Defined.


(** X11 on the sample collection, on the path [/a]. *)
Lemma delete_twice_sample :
  run (exec Sample.applyUpdate) (deleteItem "/a")
      (fst (fst (run (exec Sample.applyUpdate) (deleteItem "/a")
                     Sample.db_a))) =
  (fst (fst (run (exec Sample.applyUpdate) (deleteItem "/a") Sample.db_a)),
   [Invoked (DeleteOne "/a")],
   Returned (Some (envelope "Deleted count: 0" 200), 200%Z)).
Proof.
  apply (delete_twice Sample.applyUpdate "/a" Sample.db_a).
  vm_compute. lia.
Defined.

(** X12 on the collection that holds [/a] and [/b]: DELETE on [/a]
    leaves the document of [/b] where it was. *)
Lemma request_leaves_other_paths_sample :
  docsAt "/b" Rules.db_ab = [Rules.stored_b] /\
  docsAt "/b"
    (fst (fst (run (exec Sample.applyUpdate)
                   (mainHandler Sample.json_Unmarshal freshWriter
                      (Sample.request "DELETE" EmptyString))
                   Rules.db_ab)))
  = docsAt "/b" Rules.db_ab /\
  snd (run (exec Sample.applyUpdate) (getItem "/b")
           (fst (fst (run (exec Sample.applyUpdate)
                          (mainHandler Sample.json_Unmarshal freshWriter
                             (Sample.request "DELETE" EmptyString))
                          Rules.db_ab))))
  = Returned (Some Rules.stored_b, 200%Z).
Proof.
  destruct (request_leaves_other_paths Sample.json_Unmarshal
              Sample.applyUpdate freshWriter
              (Sample.request "DELETE" EmptyString) "/b" Rules.db_ab)
    as [Hdocs Hget].
  - exact sample_update_keepsPath.
  - discriminate.
  - split; [reflexivity|]. split; [exact Hdocs|].
    rewrite Hget. reflexivity.
Defined.

(** X13 on the collection that holds [/a]: POST of [name = x] on [/b]. *)
Lemma post_then_get_new_path_sample :
  run (store Rules.admitInsert Rules.admitReplace Sample.applyUpdate)
      (getItem "/b")
      (Rules.db_a ++
       [<["_id" := Int 2]> (<["path" := Str "/b"]> Rules.name_x)])%list =
    ((Rules.db_a ++
      [<["_id" := Int 2]> (<["path" := Str "/b"]> Rules.name_x)])%list,
     [Invoked (FindOne "/b")],
     Returned (Some (<["_id" := Int 2]>
                       (<["path" := Str "/b"]> Rules.name_x)), 200%Z)).
Proof.
  apply (post_then_get_new_path Rules.admitInsert Rules.admitReplace
           Sample.applyUpdate "/b" Rules.name_x
           (<["_id" := Int 2]> (<["path" := Str "/b"]> Rules.name_x))
           Rules.db_a rules_keepsDocuments).
  - reflexivity.
  - vm_compute. reflexivity.
Defined.


(** X16 with updates that merge, from the empty collection. *)
Lemma session_keeps_collection_keyed_sample :
  wellKeyed
    (snd (session Sample.json_Unmarshal mergeFields
            [Sample.request "PUT" Sample.json_name_x;
             Sample.request "POST" Sample.json_name_x;
             Sample.request "PUT" "{}"] [])) /\
  allKeyed
    (snd (session Sample.json_Unmarshal mergeFields
            [Sample.request "PUT" Sample.json_name_x;
             Sample.request "POST" Sample.json_name_x;
             Sample.request "PUT" "{}"] [])).
Proof.
  apply (session_keeps_collection_keyed Sample.json_Unmarshal mergeFields).
  - exact mergeFields_keepsPath.
  - exact wellKeyed_nil.
  - intros d [].
Defined.


(** [getEnv] in an environment that sets the port only. *)
Lemma getEnv_value_sample :
  getEnv portOnly "SERVER_PORT" "8080" = "9090" /\
  getEnv portOnly "SERVER_HOST" "0.0.0.0" = "0.0.0.0" /\
  getEnv portOnly "SERVER_HOST" "0.0.0.0" <> EmptyString.
Proof.
  destruct (getEnv_value portOnly "SERVER_PORT" "8080") as (Hset & _ & _).
  destruct (getEnv_value portOnly "SERVER_HOST" "0.0.0.0")
    as (_ & Hunset & Hne).
  split; [|split].
  - apply Hset. discriminate.
  - apply Hunset. reflexivity.
  - apply Hne. discriminate.
Defined.

(** ** Reading the body *)

Section Reading.

Variable json_Unmarshal : string -> error + GoMap.

(** X19. [readBody] returns an error only when the body is not empty and
    the decoder rejects it, and then the map it returns is nil; an empty
    body is never an error. *)
Theorem readBody_error_from_decoder (req : Request) (m : GoMap)
    (err : error) :
  readBody json_Unmarshal req = Ret (m, Some err) ->
  m = None /\
  exists bytes,
    Body req = Delivers bytes /\ bytes <> EmptyString /\
    json_Unmarshal bytes = inl err.
Proof.
  unfold readBody, jsonToMap.
  destruct (Body req) as [bytes|e]; simpl; [|discriminate].
  destruct bytes as [|c bytes]; simpl; [discriminate|].
  destruct (json_Unmarshal (String c bytes)) as [e|r] eqn:Hdec;
    intros [= <- <-].
  split; [reflexivity|]. exists (String c bytes). now repeat split.
Qed.

End Reading.

(** X19 for a request with the body [{]. *)
Lemma readBody_error_from_decoder_sample :
  @None (gmap string any) = None /\
  exists bytes,
    Body (Sample.request "PUT" "{") = Delivers bytes /\
    bytes <> EmptyString /\
    Sample.json_Unmarshal bytes
      = inl (errorString "invalid character in JSON object").
Proof.
  apply (readBody_error_from_decoder Sample.json_Unmarshal
           (Sample.request "PUT" "{") None
           (errorString "invalid character in JSON object")).
  reflexivity.
Defined.
